(** * M16 modem library: frame codec and session driver

    A shallow embedding of the C++ sources of the M16 modem library
    ([protocol.cpp], [M16-lib.cpp], [M16-lib.h], [protocol.h]) and the
    properties of the frame codec and of the modem session driver.

    Conventions.
    - A C++ unsigned integer of width [w] is a [Z] in [0, 2^w); every
      narrowing conversion the source performs is written out with
      [to_uint8], [to_uint16] or [to_uint32].
    - Bit operators are [Z.land], [Z.lor], [Z.shiftl] and [Z.shiftr];
      the operands of [&], [|], [<<] and [>>] are promoted to [int], which
      is wide enough for every intermediate value that occurs here, so the
      promoted operations are the operations of [Z].
    - An [enum E : unsigned char] object holds any value of its underlying
      type; the inductive type lists the enumerators and structure fields
      carry the underlying value. *)

From Stdlib Require Import ZArith List Lia Bool String Ascii Btauto.
From coqutil Require Import Z.bitblast.
Import ListNotations.

Local Open Scope Z_scope.

(** ** Fixed-width unsigned integers *)

Definition to_uint8 (x : Z) : Z := x mod 2 ^ 8.
Definition to_uint16 (x : Z) : Z := x mod 2 ^ 16.
Definition to_uint32 (x : Z) : Z := x mod 2 ^ 32.

Definition is_uint8 (x : Z) : Prop := 0 <= x < 2 ^ 8.

(** ** [namespace coder_decoder]: the 3-3-10 codec of [protocol.cpp] *)

Module coder_decoder.

(** [enum Command : unsigned char { SEND, TEST = 0b101 }] *)
Inductive Command : Set := SEND | TEST.

Definition Command_value (c : Command) : Z :=
  match c with
  | SEND => 0
  | TEST => 5
  end.

Record ProtocolStructure : Set := {
  id : Z;       (* unsigned char *)
  command : Z;  (* Command, as its underlying unsigned char *)
  data : Z      (* unsigned short *)
}.

(** [unsigned short encode(unsigned char id, Command command, unsigned short data)] *)
Definition encode (id command data : Z) : Z :=
  let codedMessage := 0 in
  let codedMessage := to_uint16 (Z.lor codedMessage (Z.shiftl (Z.land 0x07 id) (5 + 8))) in
  let codedMessage := to_uint16 (Z.lor codedMessage (Z.shiftl (Z.land 0x07 command) (2 + 8))) in
  let codedMessage := to_uint16 (Z.lor codedMessage (Z.land 0x03FF data)) in
  codedMessage.

(** [unsigned short encode(ProtocolStructure send)] *)
Definition encode_struct (send : ProtocolStructure) : Z :=
  encode (id send) (command send) (data send).

(** [ProtocolStructure decode(unsigned short messageToDecode)] *)
Definition decode (messageToDecode : Z) : ProtocolStructure :=
  {| id := to_uint8 (Z.land 0x0007 (Z.shiftr messageToDecode (5 + 8)));
     command := to_uint8 (Z.land 0x0007 (Z.shiftr messageToDecode (2 + 8)));
     data := to_uint16 (Z.land messageToDecode 0x03FF) |}.

(** The earlier revision of the encoder, [code] in the first
    [protocol.cpp]: the id and the command are shifted without a mask. *)
Definition code (id command data : Z) : Z :=
  let codedMessage := 0 in
  let codedMessage := to_uint16 (Z.lor codedMessage (Z.shiftl id (5 + 8))) in
  let codedMessage := to_uint16 (Z.lor codedMessage (Z.shiftl command (2 + 8))) in
  let codedMessage := to_uint16 (Z.lor codedMessage (Z.land 0x03FF data)) in
  codedMessage.

(** [unsigned short code(ProtocolStructure send)] *)
Definition code_struct (send : ProtocolStructure) : Z :=
  code (id send) (command send) (data send).

End coder_decoder.

(** ** The serial port, the scheduler and the console

    The driver reaches the modem through the ESP-IDF calls
    [uart_write_bytes] and [uart_read_bytes], waits with [vTaskDelay] and
    logs with [Serial.printf].  They are modelled by a scripted port: the
    script fixes what every future read attempt finds and which status
    every future write returns, and the port keeps the trace of the calls
    made on it. *)

Inductive Event : Set :=
| UartWrite (bytes : list Z) (status : Z)
    (* uart_write_bytes(port, bytes, len) and the int it returned *)
| UartRead (length timeout : Z) (bytes : list Z) (result : Z)
    (* uart_read_bytes(port, dest, length, pdMS_TO_TICKS(timeout)), the bytes
       stored at dest and the int it returned *)
| TaskDelay (ms : Z)
    (* vTaskDelay(pdMS_TO_TICKS(ms)) *)
| SerialPrint (text : string).

(** What one read attempt finds within its timeout: the bytes that arrive
    (possibly none), or a driver error (the call returns -1). *)
Inductive RxSlot : Set :=
| Arrive (bytes : list Z)
| RxError.

Record Uart : Set := {
  rx_fifo : list Z;          (* bytes received and not yet read *)
  rx_script : list RxSlot;   (* one slot per future read attempt; nothing
                                arrives once the script is exhausted *)
  tx_script : list Z;        (* the status of each future write; a write
                                past the script returns its length *)
  trace : list Event         (* the calls made so far, oldest first *)
}.

Definition record_event (e : Event) (u : Uart) : Uart :=
  {| rx_fifo := rx_fifo u; rx_script := rx_script u; tx_script := tx_script u;
     trace := trace u ++ [e] |}.

(** The bytes handed to the port for transmission, in order. *)
Fixpoint written (t : list Event) : list Z :=
  match t with
  | [] => []
  | UartWrite bytes _ :: t' => bytes ++ written t'
  | _ :: t' => written t'
  end.

(** The bytes delivered by the port's read calls, in order. *)
Fixpoint delivered (t : list Event) : list Z :=
  match t with
  | [] => []
  | UartRead _ _ bytes _ :: t' => bytes ++ delivered t'
  | _ :: t' => delivered t'
  end.

(** The number of read attempts. *)
Fixpoint read_attempts (t : list Event) : nat :=
  match t with
  | [] => O
  | UartRead _ _ _ _ :: t' => S (read_attempts t')
  | _ :: t' => read_attempts t'
  end.

(** The number of read attempts that returned no byte. *)
Fixpoint empty_reads (t : list Event) : nat :=
  match t with
  | [] => O
  | UartRead _ _ _ result :: t' =>
      if result <=? 0 then S (empty_reads t') else empty_reads t'
  | _ :: t' => empty_reads t'
  end.

Definition port_write (bytes : list Z) (u : Uart) : Z * Uart :=
  let status :=
    match tx_script u with
    | [] => Z.of_nat (List.length bytes)
    | s :: _ => s
    end in
  (status,
   {| rx_fifo := rx_fifo u; rx_script := rx_script u; tx_script := tl (tx_script u);
      trace := trace u ++ [UartWrite bytes status] |}).

Definition port_read (length timeout : Z) (u : Uart) : (Z * list Z) * Uart :=
  match rx_script u with
  | RxError :: rest =>
      ((-1, []),
       {| rx_fifo := rx_fifo u; rx_script := rest; tx_script := tx_script u;
          trace := trace u ++ [UartRead length timeout [] (-1)] |})
  | slots =>
      let arrived := match slots with Arrive bytes :: _ => bytes | _ => [] end in
      let available := rx_fifo u ++ arrived in
      let got := firstn (Z.to_nat length) available in
      let result := Z.of_nat (List.length got) in
      ((result, got),
       {| rx_fifo := skipn (Z.to_nat length) available; rx_script := tl slots;
          tx_script := tx_script u;
          trace := trace u ++ [UartRead length timeout got result] |})
  end.

(** [uart_get_buffered_data_len(port, &size)]: the number of bytes waiting
    in the RX buffer.  The query leaves the port as it is. *)
Definition port_buffered_data_len (u : Uart) : Z * Uart :=
  (Z.of_nat (List.length (rx_fifo u)), u).

(** [uart_flush_input(port)]: the bytes waiting in the RX buffer are
    discarded. *)
Definition port_flush_input (u : Uart) : unit * Uart :=
  (tt,
   {| rx_fifo := []; rx_script := rx_script u; tx_script := tx_script u;
      trace := trace u |}).

Definition newline : string := String (ascii_of_nat 10) EmptyString.

(** ** [class M16]: the 4-4-8 codec and the session driver *)

Module M16.

(** [enum Command : uint8_t], "Max value is 7" *)
Inductive Command : Set :=
| HI
| REQUEST_DATA
| FINISHED
| TEMP_SENSOR
| PRESSURE_SENSOR
| CONDUCTIVITY_SENSOR
| PH_SENSOR
| SENSOR_DATA_RECEIVED.

Definition Command_value (c : Command) : Z :=
  match c with
  | HI => 0
  | REQUEST_DATA => 1
  | FINISHED => 2
  | TEMP_SENSOR => 3
  | PRESSURE_SENSOR => 4
  | CONDUCTIVITY_SENSOR => 5
  | PH_SENSOR => 6
  | SENSOR_DATA_RECEIVED => 7
  end.

(** [struct ProtocolStructure].  [data] is an [unsigned char] in the
    revision of [M16-lib.h] that declares [encode] as [M16-lib.cpp]
    defines it, and an [unsigned short] in the other revision; [encode]
    keeps the low 8 bits in both. *)
Record ProtocolStructure : Set := {
  id : Z;       (* unsigned char *)
  command : Z;  (* Command, as its underlying uint8_t *)
  data : Z      (* unsigned char *)
}.

(** [unsigned short M16::encode(unsigned char id, Command command, unsigned char data)] *)
Definition encode (id command data : Z) : Z :=
  let codedMessage := 0 in
  let codedMessage := to_uint16 (Z.lor codedMessage (Z.shiftl (Z.land 0x0F id) (4 + 8))) in
  let codedMessage := to_uint16 (Z.lor codedMessage (Z.shiftl (Z.land 0x0F command) 8)) in
  let codedMessage := to_uint16 (Z.lor codedMessage (Z.land 0x00FF data)) in
  codedMessage.

(** [unsigned short M16::encode(ProtocolStructure send)] *)
Definition encode_struct (send : ProtocolStructure) : Z :=
  encode (id send) (command send) (data send).

(** [ProtocolStructure M16::decode(unsigned short messageToDecode)] *)
Definition decode (messageToDecode : Z) : ProtocolStructure :=
  let result := {| id := 0; command := Command_value HI; data := 0 |} in
  let result := {| id := to_uint8 (Z.land 0x000F (Z.shiftr messageToDecode (4 + 8)));
                   command := command result; data := data result |} in
  let result := {| id := id result;
                   command := to_uint8 (Z.land 0x000F (Z.shiftr messageToDecode 8));
                   data := data result |} in
  let result := {| id := id result; command := command result;
                   data := to_uint8 (Z.land messageToDecode 0x00FF) |} in
  result.

(** [ProtocolStructure M16::decode(uint8_t *messageToDecode)]: the
    buffer is the list of the bytes the pointer designates; the function
    reads [messageToDecode[0]] and [messageToDecode[1]], so a shorter
    buffer has no defined result. *)
Definition decode_bytes (messageToDecode : list Z) : option ProtocolStructure :=
  match messageToDecode with
  | b0 :: b1 :: _ =>
      let result := {| id := 0; command := Command_value HI; data := 0 |} in
      let result := {| id := to_uint8 (Z.land 0x0F (Z.shiftr b0 4));
                       command := command result; data := data result |} in
      let result := {| id := id result;
                       command := to_uint8 (Z.land 0x0F b0);
                       data := data result |} in
      let result := {| id := id result; command := command result;
                       data := b1 |} in
      Some result
  | _ => None
  end.

(** [struct Report] *)
Record Report : Set := {
  startOfFrame : Z     (* uint8_t *);
  transportBlock : Z   (* uint16_t *);
  bitErrorRate : Z     (* uint8_t *);
  signalPower : Z      (* uint8_t *);
  noisePower : Z       (* uint8_t *);
  packetValid : Z      (* uint16_t *);
  packedInvalid : Z    (* uint8_t *);
  firmwareVersion : Z  (* uint8_t *);
  timeSinceBoot : Z    (* uint32_t *);
  chipID : Z           (* uint16_t *);
  hwRev : Z            (* uint8_t *);
  channel : Z          (* uint8_t *);
  tbValid : Z          (* uint8_t *);
  txComplete : Z       (* uint8_t *);
  diagnostic : Z       (* uint8_t *);
  reserved : Z         (* uint8_t *);
  powerLevel : Z       (* uint8_t *);
  reserved2 : Z        (* uint8_t *);
  endOfFrame : Z       (* uint8_t *)
}.

Definition set_startOfFrame (v : Z) (r : Report) : Report :=
  Build_Report v (transportBlock r) (bitErrorRate r) (signalPower r) (noisePower r)
    (packetValid r) (packedInvalid r) (firmwareVersion r) (timeSinceBoot r)
    (chipID r) (hwRev r) (channel r) (tbValid r) (txComplete r) (diagnostic r)
    (reserved r) (powerLevel r) (reserved2 r) (endOfFrame r).

Definition set_transportBlock (v : Z) (r : Report) : Report :=
  Build_Report (startOfFrame r) v (bitErrorRate r) (signalPower r) (noisePower r)
    (packetValid r) (packedInvalid r) (firmwareVersion r) (timeSinceBoot r)
    (chipID r) (hwRev r) (channel r) (tbValid r) (txComplete r) (diagnostic r)
    (reserved r) (powerLevel r) (reserved2 r) (endOfFrame r).

Definition set_bitErrorRate (v : Z) (r : Report) : Report :=
  Build_Report (startOfFrame r) (transportBlock r) v (signalPower r) (noisePower r)
    (packetValid r) (packedInvalid r) (firmwareVersion r) (timeSinceBoot r)
    (chipID r) (hwRev r) (channel r) (tbValid r) (txComplete r) (diagnostic r)
    (reserved r) (powerLevel r) (reserved2 r) (endOfFrame r).

Definition set_signalPower (v : Z) (r : Report) : Report :=
  Build_Report (startOfFrame r) (transportBlock r) (bitErrorRate r) v (noisePower r)
    (packetValid r) (packedInvalid r) (firmwareVersion r) (timeSinceBoot r)
    (chipID r) (hwRev r) (channel r) (tbValid r) (txComplete r) (diagnostic r)
    (reserved r) (powerLevel r) (reserved2 r) (endOfFrame r).

Definition set_noisePower (v : Z) (r : Report) : Report :=
  Build_Report (startOfFrame r) (transportBlock r) (bitErrorRate r) (signalPower r) v
    (packetValid r) (packedInvalid r) (firmwareVersion r) (timeSinceBoot r)
    (chipID r) (hwRev r) (channel r) (tbValid r) (txComplete r) (diagnostic r)
    (reserved r) (powerLevel r) (reserved2 r) (endOfFrame r).

Definition set_packetValid (v : Z) (r : Report) : Report :=
  Build_Report (startOfFrame r) (transportBlock r) (bitErrorRate r) (signalPower r)
    (noisePower r) v (packedInvalid r) (firmwareVersion r) (timeSinceBoot r)
    (chipID r) (hwRev r) (channel r) (tbValid r) (txComplete r) (diagnostic r)
    (reserved r) (powerLevel r) (reserved2 r) (endOfFrame r).

Definition set_packedInvalid (v : Z) (r : Report) : Report :=
  Build_Report (startOfFrame r) (transportBlock r) (bitErrorRate r) (signalPower r)
    (noisePower r) (packetValid r) v (firmwareVersion r) (timeSinceBoot r) (chipID r)
    (hwRev r) (channel r) (tbValid r) (txComplete r) (diagnostic r) (reserved r)
    (powerLevel r) (reserved2 r) (endOfFrame r).

Definition set_firmwareVersion (v : Z) (r : Report) : Report :=
  Build_Report (startOfFrame r) (transportBlock r) (bitErrorRate r) (signalPower r)
    (noisePower r) (packetValid r) (packedInvalid r) v (timeSinceBoot r) (chipID r)
    (hwRev r) (channel r) (tbValid r) (txComplete r) (diagnostic r) (reserved r)
    (powerLevel r) (reserved2 r) (endOfFrame r).

Definition set_timeSinceBoot (v : Z) (r : Report) : Report :=
  Build_Report (startOfFrame r) (transportBlock r) (bitErrorRate r) (signalPower r)
    (noisePower r) (packetValid r) (packedInvalid r) (firmwareVersion r) v (chipID r)
    (hwRev r) (channel r) (tbValid r) (txComplete r) (diagnostic r) (reserved r)
    (powerLevel r) (reserved2 r) (endOfFrame r).

Definition set_chipID (v : Z) (r : Report) : Report :=
  Build_Report (startOfFrame r) (transportBlock r) (bitErrorRate r) (signalPower r)
    (noisePower r) (packetValid r) (packedInvalid r) (firmwareVersion r)
    (timeSinceBoot r) v (hwRev r) (channel r) (tbValid r) (txComplete r)
    (diagnostic r) (reserved r) (powerLevel r) (reserved2 r) (endOfFrame r).

Definition set_hwRev (v : Z) (r : Report) : Report :=
  Build_Report (startOfFrame r) (transportBlock r) (bitErrorRate r) (signalPower r)
    (noisePower r) (packetValid r) (packedInvalid r) (firmwareVersion r)
    (timeSinceBoot r) (chipID r) v (channel r) (tbValid r) (txComplete r)
    (diagnostic r) (reserved r) (powerLevel r) (reserved2 r) (endOfFrame r).

Definition set_channel (v : Z) (r : Report) : Report :=
  Build_Report (startOfFrame r) (transportBlock r) (bitErrorRate r) (signalPower r)
    (noisePower r) (packetValid r) (packedInvalid r) (firmwareVersion r)
    (timeSinceBoot r) (chipID r) (hwRev r) v (tbValid r) (txComplete r)
    (diagnostic r) (reserved r) (powerLevel r) (reserved2 r) (endOfFrame r).

Definition set_tbValid (v : Z) (r : Report) : Report :=
  Build_Report (startOfFrame r) (transportBlock r) (bitErrorRate r) (signalPower r)
    (noisePower r) (packetValid r) (packedInvalid r) (firmwareVersion r)
    (timeSinceBoot r) (chipID r) (hwRev r) (channel r) v (txComplete r)
    (diagnostic r) (reserved r) (powerLevel r) (reserved2 r) (endOfFrame r).

Definition set_txComplete (v : Z) (r : Report) : Report :=
  Build_Report (startOfFrame r) (transportBlock r) (bitErrorRate r) (signalPower r)
    (noisePower r) (packetValid r) (packedInvalid r) (firmwareVersion r)
    (timeSinceBoot r) (chipID r) (hwRev r) (channel r) (tbValid r) v (diagnostic r)
    (reserved r) (powerLevel r) (reserved2 r) (endOfFrame r).

Definition set_diagnostic (v : Z) (r : Report) : Report :=
  Build_Report (startOfFrame r) (transportBlock r) (bitErrorRate r) (signalPower r)
    (noisePower r) (packetValid r) (packedInvalid r) (firmwareVersion r)
    (timeSinceBoot r) (chipID r) (hwRev r) (channel r) (tbValid r) (txComplete r) v
    (reserved r) (powerLevel r) (reserved2 r) (endOfFrame r).

Definition set_powerLevel (v : Z) (r : Report) : Report :=
  Build_Report (startOfFrame r) (transportBlock r) (bitErrorRate r) (signalPower r)
    (noisePower r) (packetValid r) (packedInvalid r) (firmwareVersion r)
    (timeSinceBoot r) (chipID r) (hwRev r) (channel r) (tbValid r) (txComplete r)
    (diagnostic r) (reserved r) v (reserved2 r) (endOfFrame r).

Definition set_endOfFrame (v : Z) (r : Report) : Report :=
  Build_Report (startOfFrame r) (transportBlock r) (bitErrorRate r) (signalPower r)
    (noisePower r) (packetValid r) (packedInvalid r) (firmwareVersion r)
    (timeSinceBoot r) (chipID r) (hwRev r) (channel r) (tbValid r) (txComplete r)
    (diagnostic r) (reserved r) (powerLevel r) (reserved2 r) v.

(** *** The driver object

    [uart_num] designates the port; the object's state is the state of
    that port together with the public [report] member. *)
Record M16 : Set := {
  uart_num : Uart;
  report : Report
}.

(** A member function: a function of the object's state that returns a
    value and the state it leaves. *)
Definition Method (A : Type) : Type := M16 -> A * M16.

Definition ret {A : Type} (a : A) : Method A := fun m => (a, m).

Definition bind {A B : Type} (c : Method A) (k : A -> Method B) : Method B :=
  fun m => let (a, m') := c m in k a m'.

Notation "x <- c ;; k" := (bind c (fun x => k))
  (at level 61, c at next level, right associativity).
Notation "' pat <- c ;; k" := (bind c (fun x => match x with pat => k end))
  (at level 61, pat pattern, c at next level, right associativity).
Notation "c ;; k" := (bind c (fun _ => k))
  (at level 61, right associativity).

Definition on_port {A : Type} (call : Uart -> A * Uart) : Method A :=
  fun m => let (a, u) := call (uart_num m) in (a, {| uart_num := u; report := report m |}).

Definition uart_write_bytes (bytes : list Z) : Method Z := on_port (port_write bytes).

Definition uart_read_bytes (length timeout : Z) : Method (Z * list Z) :=
  on_port (port_read length timeout).

Definition vTaskDelay (ms : Z) : Method unit :=
  on_port (fun u => (tt, record_event (TaskDelay ms) u)).

Definition Serial_printf (text : string) : Method unit :=
  on_port (fun u => (tt, record_event (SerialPrint text) u)).

(** [this->report.field = value] *)
Definition assign (set : Z -> Report -> Report) (value : Z) : Method unit :=
  fun m => (tt, {| uart_num := uart_num m; report := set value (report m) |}).

(** [void M16::sendByte(uint8_t byte)]; the argument is converted to
    [uint8_t] and the status of the write is dropped. *)
Definition sendByte (byte : Z) : Method unit :=
  uart_write_bytes [to_uint8 byte] ;; ret tt.

(** [bool M16::sendPacket(unsigned short packet)] *)
Definition sendPacket_word (packet : Z) : Method bool :=
  let bytes0 := to_uint8 (Z.land (Z.shiftr packet 8) 0xff) in
  let bytes1 := to_uint8 (Z.land packet 0xff) in
  uart_write_bytes [bytes0; bytes1] ;;
  ret true.

(** [void M16::switchOperationMode()] *)
Definition switchOperationMode : Method unit :=
  sendByte 0x6d ;;
  vTaskDelay 1000 ;;
  sendByte 0x6d.

(** [void M16::setCommunicationChannel(uint8_t channel)] *)
Definition setCommunicationChannel (channel : Z) : Method unit :=
  if (channel <? 1) || (12 <? channel) then
    Serial_printf ("Wrong channel" ++ newline) ;;
    ret tt
  else
    sendByte 0x63 ;;
    vTaskDelay 1000 ;;
    sendByte 0x63 ;;
    vTaskDelay 1 ;;
    if channel <=? 9 then sendByte (0x30 + channel)
    else sendByte (0x61 + (channel - 10)).

(** [void M16::setPowerLevel(uint8_t powerLevel)] *)
Definition setPowerLevel (powerLevel : Z) : Method unit :=
  if (powerLevel <? 1) || (4 <? powerLevel) then
    ret tt
  else
    sendByte 0x6c ;;
    vTaskDelay 1000 ;;
    sendByte 0x6c ;;
    vTaskDelay 1500 ;;
    sendByte (0x30 + powerLevel).

(** How the polling loop of [requestReport] ends.  [FuelExhausted] is
    not an outcome of the source: it marks a run of the model that was
    cut short, and [poll_fuel_suffices] shows that it does not occur. *)
Inductive PollExit : Set :=
| Collected (reportBytes : list Z)
| RetriesExceeded
| FuelExhausted.

(** [sizeof(reportBytes)] *)
Definition sizeof_reportBytes : Z := 18.

(** The loop [while (bytesRead < sizeof(reportBytes)) { ... }].
    [reportBytes] is the part of the array filled so far: a read stores
    its bytes at [reportBytes + bytesRead]. *)
Fixpoint poll (fuel : nat) (reportBytes : list Z) (retries bytesRead : Z)
  : Method PollExit :=
  if bytesRead <? sizeof_reportBytes then
    match fuel with
    | O => ret FuelExhausted
    | S fuel' =>
        '(result, stored) <- uart_read_bytes (sizeof_reportBytes - bytesRead) 10 ;;
        if 0 <? result then
          poll fuel' (reportBytes ++ stored) retries (bytesRead + result)
        else
          (* if (retries++ > 100) return false; *)
          if 100 <? retries then ret RetriesExceeded
          else poll fuel' reportBytes (to_uint8 (retries + 1)) bytesRead
    end
  else ret (Collected reportBytes).

(** An iteration either adds a byte or counts a retry, so the loop runs
    at most 18 + 102 times. *)
Definition poll_fuel : nat := 120.

Notation "a .[ i ]" := (nth i a 0) (at level 1, format "a .[ i ]").

(** [bool M16::requestReport()]; [None] only if the model of the loop
    was cut short. *)
Definition requestReport : Method (option bool) :=
  sendByte 0x72 ;;
  vTaskDelay 1000 ;;
  sendByte 0x72 ;;
  exit <- poll poll_fuel [] 0 0 ;;
  match exit with
  | FuelExhausted => ret None
  | RetriesExceeded => ret (Some false)
  | Collected reportBytes =>
      assign set_startOfFrame reportBytes.[0] ;;
      assign set_transportBlock
        (to_uint16 (Z.lor (Z.shiftl reportBytes.[1] 8) reportBytes.[2])) ;;
      assign set_bitErrorRate reportBytes.[3] ;;
      assign set_signalPower reportBytes.[4] ;;
      assign set_noisePower reportBytes.[5] ;;
      assign set_packetValid
        (to_uint16 (Z.lor (Z.shiftl reportBytes.[6] 8) reportBytes.[7])) ;;
      assign set_packedInvalid reportBytes.[8] ;;
      assign set_firmwareVersion reportBytes.[9] ;;
      assign set_timeSinceBoot
        (to_uint32 (Z.lor (Z.lor (Z.shiftl reportBytes.[10] 16)
                                 (Z.shiftl reportBytes.[11] 8))
                          reportBytes.[12])) ;;
      assign set_chipID
        (to_uint16 (Z.lor (Z.shiftl reportBytes.[13] 8) reportBytes.[14])) ;;
      assign set_hwRev (to_uint8 (Z.land reportBytes.[15] 0x03)) ;;
      assign set_channel (to_uint8 (Z.shiftr (Z.land reportBytes.[15] 0x3C) 2)) ;;
      assign set_tbValid (to_uint8 (Z.shiftr (Z.land reportBytes.[15] 0x40) 6)) ;;
      assign set_txComplete (to_uint8 (Z.shiftr (Z.land reportBytes.[15] 0x80) 7)) ;;
      assign set_diagnostic (to_uint8 (Z.land reportBytes.[16] 0x01)) ;;
      (* this->report.reserved is not assigned *)
      assign set_powerLevel (to_uint8 (Z.shiftr (Z.land reportBytes.[16] 0x0C) 2)) ;;
      (* this->report.reserved2 is not assigned *)
      assign set_endOfFrame reportBytes.[17] ;;
      ret (Some true)
  end.

(** [bool M16::sendPacket(ProtocolStructure packet)] *)
Definition sendPacket_struct (packet : ProtocolStructure) : Method bool :=
  let encodedPackage := encode_struct packet in
  sendPacket_word encodedPackage.

(** [bool M16::sendPacket(unsigned char id, Command command, unsigned char data)] *)
Definition sendPacket (id command data : Z) : Method bool :=
  let encodedPackage := encode id command data in
  sendPacket_word encodedPackage.

Definition uart_get_buffered_data_len : Method Z := on_port port_buffered_data_len.

Definition uart_flush_input : Method unit := on_port port_flush_input.

(** [size_t M16::getRxBuffLength()] *)
Definition getRxBuffLength : Method Z :=
  buffered_size <- uart_get_buffered_data_len ;;
  ret buffered_size.

(** [int M16::readRxBuff(uint8_t *data, size_t length)]: the value
    returned, and the bytes stored at [data]. *)
Definition readRxBuff (length : Z) : Method (Z * list Z) :=
  '(num, data) <- uart_read_bytes length 100 ;;
  uart_flush_input ;;
  ret (num, data).

End M16.

(** ** The first revision of [class M16]

    The first [M16-lib.cpp] has no codec: its [sendPacket] packs a 3-bit
    id and 13 bits of data itself. *)

Module M16_rev1.

(** [bool M16::sendPacket(uint8_t ID, uint16_t data)] *)
Definition sendPacket (ID data : Z) : M16.Method bool :=
  let packedData := to_uint16 (Z.lor (Z.shiftl ID 13) data) in
  let bytes0 := to_uint8 (Z.shiftr packedData 8) in
  let bytes1 := to_uint8 (Z.land packedData 0xff) in
  M16.bind (M16.uart_write_bytes [bytes0; bytes1]) (fun _ =>
  M16.ret true).

(** [void M16::sendByte_TEST(uint8_t byte)] *)
Definition sendByte_TEST (byte : Z) : M16.Method unit :=
  M16.bind (M16.uart_write_bytes [to_uint8 byte]) (fun _ => M16.ret tt).

End M16_rev1.

(** ** [convertToBinary]

    [template <typename T> std::string convertToBinary(T input)], for an
    unsigned [T] of [sizeof_T] bytes; the source instantiates it at
    [uint8_t] and [unsigned short], where [input & (1 << i)] is computed
    on [int] without overflow. *)

(** The loop [for (int i = sizeof(input) * 8 - 1; i >= 0; i--)], with
    [count = i + 1] iterations left. *)
Fixpoint convertToBinary_loop (count : nat) (input : Z) (output : string) : string :=
  match count with
  | O => output
  | S i =>
      let output :=
        if negb (Z.land input (Z.shiftl 1 (Z.of_nat i)) =? 0)
        then (output ++ "1")%string
        else (output ++ "0")%string in
      convertToBinary_loop i input output
  end.

Definition convertToBinary (sizeof_T : nat) (input : Z) : string :=
  let output := "0b"%string in
  convertToBinary_loop (sizeof_T * 8) input output.

(** The number a string of binary digits writes, most significant digit
    first; [binary_value] reads it after the prefix "0b". *)
Fixpoint digits_value (acc : Z) (digits : string) : option Z :=
  match digits with
  | EmptyString => Some acc
  | String "0" rest => digits_value (2 * acc) rest
  | String "1" rest => digits_value (2 * acc + 1) rest
  | String _ _ => None
  end.

Definition binary_value (s : string) : option Z :=
  match s with
  | String "0" (String "b" digits) => digits_value 0 digits
  | _ => None
  end.

(** ** Ports and objects used in the examples *)

(** A port on which nothing ever arrives and every write succeeds. *)
Definition quiet_port : Uart :=
  {| rx_fifo := []; rx_script := []; tx_script := []; trace := [] |}.

(** The default member initialisers of [struct Report]. *)
Definition zero_report : M16.Report :=
  M16.Build_Report 0 0 0 0 0 0 0 0 0 0 0 0 0 0 0 0 0 0 0.

Definition quiet_modem : M16.M16 :=
  {| M16.uart_num := quiet_port; M16.report := zero_report |}.

(** The 18 bytes of the report taken as example by the specification. *)
Definition report_frame : list Z :=
  [0xAA; 0x01; 0x02; 0x10; 0x20; 0x30; 0x00; 0x05; 0x01; 0x02; 0x00; 0x01; 0x00;
   0x12; 0x34; 0xB5 (* 0b10110101 *); 0x05 (* 0b00000101 *); 0x55].

(** A port on which the 18 bytes of [report_frame] arrive during the
    first read attempt. *)
Definition frame_port : Uart :=
  {| rx_fifo := []; rx_script := [Arrive report_frame]; tx_script := []; trace := [] |}.

(** An object whose [report] still holds other values, among them
    [reserved = 0x5A] and [reserved2 = 0x0F]. *)
Definition stale_report : M16.Report :=
  M16.Build_Report 1 2 3 4 5 6 7 8 9 10 3 12 1 1 1 0x5A 3 0x0F 0x55.

(** The value [uart_read_bytes] returns when it stores [bytes]. *)
Definition len_result (bytes : list Z) : Z := Z.of_nat (List.length bytes).

(** The bytes that arrive during the next read attempt. *)
Definition next_arrival (u : Uart) : list Z :=
  match rx_script u with
  | Arrive bytes :: _ => bytes
  | _ => []
  end.

(** An object on whose port three bytes of a report wait and nothing
    more ever arrives. *)
Definition partial_modem : M16.M16 :=
  {| M16.uart_num := {| rx_fifo := [0xAA; 0x01; 0x02]; rx_script := [];
                        tx_script := []; trace := [] |};
     M16.report := zero_report |}.

(** A read attempt that brings no byte: nothing arrives, or the call fails. *)
Definition slot_is_empty (s : RxSlot) : bool :=
  match s with
  | Arrive [] => true
  | Arrive (_ :: _) => false
  | RxError => true
  end.

(** A port whose every read attempt yields zero bytes. *)
Definition silent (u : Uart) : Prop :=
  rx_fifo u = [] /\ forallb slot_is_empty (rx_script u) = true.

(** The error conditions named by the specification.  The source has no
    such type: [requestReport] returns a [bool] and the configuration
    calls return nothing. *)
Inductive DriverError : Set :=
| InvalidArgument
| Timeout
| TransportFailure.

(** A report request leaves a fresh report if the report it leaves is
    determined by the port alone, whatever the object held before. *)
Definition report_is_fresh : Prop :=
  forall ma mb : M16.M16,
    M16.uart_num ma = M16.uart_num mb ->
    fst (M16.requestReport ma) = Some true ->
    M16.report (snd (M16.requestReport ma)) = M16.report (snd (M16.requestReport mb)).

(** What a caller gets back from a call: the value returned and the
    public [report] member of the object. *)
Definition caller_view {A : Type} (outcome : A * M16.M16) : A * M16.Report :=
  (fst outcome, M16.report (snd outcome)).

(** A caller can tell a rejected channel from an accepted one if some
    reading of what the call gives back yields [InvalidArgument] for
    channel 0 and no error for channel 1. *)
Definition channel_error_is_reported : Prop :=
  exists status : unit * M16.Report -> option DriverError,
    status (caller_view (M16.setCommunicationChannel 0 quiet_modem)) = Some InvalidArgument /\
    status (caller_view (M16.setCommunicationChannel 1 quiet_modem)) = None.

(** * Properties *)

(** ** Bit-level facts *)

Lemma mask3 : 0x07 = Z.ones 3.
Proof. reflexivity. Qed.

Lemma mask4 : 0x0F = Z.ones 4.
Proof. reflexivity. Qed.

Lemma mask8 : 0xFF = Z.ones 8.
Proof. reflexivity. Qed.

Lemma mask10 : 0x03FF = Z.ones 10.
Proof. reflexivity. Qed.

Lemma to_uint8_land x : to_uint8 x = Z.land x (Z.ones 8).
Proof. unfold to_uint8. now rewrite Z.land_ones. Qed.

Lemma to_uint16_land x : to_uint16 x = Z.land x (Z.ones 16).
Proof. unfold to_uint16. now rewrite Z.land_ones. Qed.

Lemma land_ones_small w x : 0 <= w -> 0 <= x < 2 ^ w -> Z.land x (Z.ones w) = x.
Proof. intros Hw Hx. rewrite Z.land_ones by assumption. now apply Z.mod_small. Qed.

(** Turn the masks and conversions of a goal into [Z.land _ (Z.ones _)]. *)
Ltac to_ones :=
  rewrite ?to_uint8_land, ?to_uint16_land, ?mask3, ?mask4, ?mask8, ?mask10;
  change (5 + 8) with 13; change (2 + 8) with 10; change (4 + 8) with 12.

(** Equality of two bit expressions, bit by bit. *)
Ltac bitwise :=
  Z.bitblast; rewrite ?Z.testbit_neg_r by lia; try reflexivity; try btauto.

(** ** The 3-3-10 codec *)

(** The word [encode] builds, as one expression. *)
Lemma coder_encode_word id command data :
  coder_decoder.encode id command data =
  Z.lor (Z.lor (Z.shiftl (Z.land id (Z.ones 3)) 13)
               (Z.shiftl (Z.land command (Z.ones 3)) 10))
        (Z.land data (Z.ones 10)).
Proof. unfold coder_decoder.encode. to_ones. Z.bitblast. Qed.

(** Decoding an encoded word gives back the fields, each cut to its width. *)
Lemma coder_decode_encode id command data :
  coder_decoder.decode (coder_decoder.encode id command data) =
  {| coder_decoder.id := Z.land id (Z.ones 3);
     coder_decoder.command := Z.land command (Z.ones 3);
     coder_decoder.data := Z.land data (Z.ones 10) |}.
Proof.
  rewrite coder_encode_word. unfold coder_decoder.decode. to_ones.
  f_equal; Z.bitblast.
Qed.

(** Encoding the decoded fields of a 16-bit word gives the word back. *)
Lemma coder_encode_decode w :
  0 <= w < 2 ^ 16 ->
  coder_decoder.encode_struct (coder_decoder.decode w) = w.
Proof.
  intros Hw. unfold coder_decoder.encode_struct. rewrite coder_encode_word.
  unfold coder_decoder.decode; cbn [coder_decoder.id coder_decoder.command coder_decoder.data].
  rewrite <- (land_ones_small 16 w) at 4 by lia.
  to_ones. Z.bitblast.
Qed.

(** [encode] only looks at the low bits of each argument. *)
Lemma coder_encode_masks id command data :
  coder_decoder.encode id command data =
  coder_decoder.encode (Z.land id 0x07) (Z.land command 0x07) (Z.land data 0x03FF).
Proof. rewrite !coder_encode_word. to_ones. Z.bitblast. Qed.

(** The spec's truncation example for the 3-3-10 layout. *)
Example coder_encode_truncation_example :
  coder_decoder.encode 0xFF 0xFF 0xFFFF =
  coder_decoder.encode (Z.land 0xFF 0x07) (Z.land 0xFF 0x07) (Z.land 0xFFFF 0x03FF).
Proof. apply coder_encode_masks. Qed.

(** The spec's concrete example: id 101, command 101, data masked to 10 bits. *)
Example coder_encode_concrete_example :
  coder_decoder.encode 5 (coder_decoder.Command_value coder_decoder.TEST) 0xFD55 =
  5 * 2 ^ 13 + 5 * 2 ^ 10 + Z.land 0xFD55 0x03FF.
Proof. reflexivity. Qed.

(** The earlier [code] cuts the id to 3 bits through the conversion to
    [unsigned short], although it has no mask. *)
Lemma code_id_truncated id command data :
  coder_decoder.code id command data = coder_decoder.code (Z.land id 0x07) command data.
Proof. unfold coder_decoder.code. to_ones. bitwise. Qed.

(** On commands that fit 3 bits, [code] and [encode] build the same word. *)
Lemma code_agrees_with_encode id command data :
  0 <= command < 2 ^ 3 ->
  coder_decoder.code id command data = coder_decoder.encode id command data.
Proof.
  intros Hc. rewrite coder_encode_word. unfold coder_decoder.code.
  rewrite <- (land_ones_small 3 command) by lia. to_ones. bitwise.
Qed.

(** ** The 4-4-8 codec *)

Lemma m16_encode_word id command data :
  M16.encode id command data =
  Z.lor (Z.lor (Z.shiftl (Z.land id (Z.ones 4)) 12)
               (Z.shiftl (Z.land command (Z.ones 4)) 8))
        (Z.land data (Z.ones 8)).
Proof. unfold M16.encode. to_ones. Z.bitblast. Qed.

Lemma m16_decode_fields w :
  M16.decode w =
  {| M16.id := Z.land (Z.shiftr w 12) (Z.ones 4);
     M16.command := Z.land (Z.shiftr w 8) (Z.ones 4);
     M16.data := Z.land w (Z.ones 8) |}.
Proof.
  unfold M16.decode; cbn [M16.id M16.command M16.data]. to_ones.
  f_equal; Z.bitblast.
Qed.

Lemma m16_decode_encode id command data :
  M16.decode (M16.encode id command data) =
  {| M16.id := Z.land id (Z.ones 4);
     M16.command := Z.land command (Z.ones 4);
     M16.data := Z.land data (Z.ones 8) |}.
Proof.
  rewrite m16_decode_fields, m16_encode_word.
  f_equal; Z.bitblast.
Qed.

Lemma m16_encode_decode w :
  0 <= w < 2 ^ 16 ->
  M16.encode_struct (M16.decode w) = w.
Proof.
  intros Hw. unfold M16.encode_struct. rewrite m16_decode_fields, m16_encode_word.
  cbn [M16.id M16.command M16.data].
  rewrite <- (land_ones_small 16 w) at 4 by lia.
  Z.bitblast.
Qed.

Lemma m16_encode_masks id command data :
  M16.encode id command data =
  M16.encode (Z.land id 0x0F) (Z.land command 0x0F) (Z.land data 0x00FF).
Proof. rewrite !m16_encode_word. to_ones. Z.bitblast. Qed.

Lemma coder_command_fits (c : coder_decoder.Command) :
  0 <= coder_decoder.Command_value c < 2 ^ 3.
Proof. destruct c; cbn; lia. Qed.

Lemma m16_command_fits (c : M16.Command) :
  0 <= M16.Command_value c < 2 ^ 4.
Proof. destruct c; cbn; lia. Qed.

(** C1. Round trip: for every id below 2^idBits, every data below
    2^dataBits and every enumerator of the command type, decoding the
    encoded word returns the same (id, command, data), for the 3-3-10
    codec of [coder_decoder] and for the 4-4-8 codec of [M16]. *)
Theorem codec_round_trip :
  (forall id (c : coder_decoder.Command) data,
      0 <= id < 2 ^ 3 -> 0 <= data < 2 ^ 10 ->
      coder_decoder.decode (coder_decoder.encode id (coder_decoder.Command_value c) data) =
      {| coder_decoder.id := id;
         coder_decoder.command := coder_decoder.Command_value c;
         coder_decoder.data := data |}) /\
  (forall id (c : M16.Command) data,
      0 <= id < 2 ^ 4 -> 0 <= data < 2 ^ 8 ->
      M16.decode (M16.encode id (M16.Command_value c) data) =
      {| M16.id := id;
         M16.command := M16.Command_value c;
         M16.data := data |}).
Proof.
  split; intros id c data Hid Hdata.
  - rewrite coder_decode_encode.
    pose proof (coder_command_fits c).
    now rewrite !land_ones_small by lia.
  - rewrite m16_decode_encode.
    pose proof (m16_command_fits c).
    now rewrite !land_ones_small by lia.
Qed.

Lemma codec_round_trip_witness :
  coder_decoder.decode
    (coder_decoder.encode 5 (coder_decoder.Command_value coder_decoder.TEST) 341) =
  {| coder_decoder.id := 5;
     coder_decoder.command := coder_decoder.Command_value coder_decoder.TEST;
     coder_decoder.data := 341 |} /\
  M16.decode (M16.encode 9 (M16.Command_value M16.PH_SENSOR) 200) =
  {| M16.id := 9;
     M16.command := M16.Command_value M16.PH_SENSOR;
     M16.data := 200 |}.
Proof.
  split.
  - apply (proj1 codec_round_trip 5 coder_decoder.TEST 341); lia.
  - apply (proj2 codec_round_trip 9 M16.PH_SENSOR 200); lia.
Defined.

(** C2. The earlier encoder [code] of the 3-3-10 layout does not cut the
    command to its 3 bits: the bits of a wider command run into the id
    field (id 0 is decoded as 7), so the word differs from the one built
    from the masked fields, which is the word [encode] builds. *)
Theorem code_command_not_masked :
  coder_decoder.code 0 0xFF 0 = 0xFC00 /\
  coder_decoder.code (Z.land 0 0x07) (Z.land 0xFF 0x07) (Z.land 0 0x03FF) = 0x1C00 /\
  coder_decoder.id (coder_decoder.decode (coder_decoder.code 0 0xFF 0)) = 7 /\
  coder_decoder.encode 0 0xFF 0 = 0x1C00.
Proof. repeat split. Qed.

(** C6. For every 2-byte buffer, the byte-array [decode] returns the
    structure the word [decode] returns on [(b[0] << 8) | b[1]]. *)
Theorem decode_bytes_is_decode_word (b : list Z) :
  List.length b = 2%nat ->
  Forall is_uint8 b ->
  M16.decode_bytes b =
  Some (M16.decode (to_uint16 (Z.lor (Z.shiftl (nth 0 b 0) 8) (nth 1 b 0)))).
Proof.
  intros Hlen Hb.
  destruct b as [|b0 [|b1 [|? ?]]]; try discriminate.
  inversion Hb as [|? ? H0 Hb']; subst. inversion Hb' as [|? ? H1 _]; subst.
  unfold is_uint8 in H0, H1. cbn [nth M16.decode_bytes].
  rewrite m16_decode_fields. cbn [M16.id M16.command M16.data].
  rewrite <- (land_ones_small 8 b0) by lia.
  rewrite <- (land_ones_small 8 b1) by lia.
  to_ones. do 2 f_equal; Z.bitblast.
Qed.

Lemma decode_bytes_is_decode_word_witness :
  M16.decode_bytes [0x9A; 0x3C] =
  Some (M16.decode (to_uint16 (Z.lor (Z.shiftl 0x9A 8) 0x3C))).
Proof.
  apply (decode_bytes_is_decode_word [0x9A; 0x3C]).
  - reflexivity.
  - repeat constructor; unfold is_uint8; lia.
Defined.

(** C10. The codec is a bijection on 16-bit words: for every word [w],
    encoding the decoded fields gives [w] back, for the 3-3-10 codec and
    for the 4-4-8 codec, whatever the command bits are. *)
Theorem codec_encode_decode :
  forall w, 0 <= w < 2 ^ 16 ->
    coder_decoder.encode_struct (coder_decoder.decode w) = w /\
    M16.encode_struct (M16.decode w) = w.
Proof.
  intros w Hw. split.
  - now apply coder_encode_decode.
  - now apply m16_encode_decode.
Qed.

Lemma codec_encode_decode_witness :
  coder_decoder.encode_struct (coder_decoder.decode 0xBEEF) = 0xBEEF /\
  M16.encode_struct (M16.decode 0xBEEF) = 0xBEEF.
Proof. apply (codec_encode_decode 0xBEEF). lia. Defined.

(** ** The port *)

Lemma written_app t1 t2 : written (t1 ++ t2) = written t1 ++ written t2.
Proof.
  induction t1 as [|e t1 IH]; [reflexivity|].
  destruct e; cbn [written app]; rewrite IH; auto using app_assoc.
Qed.

Lemma delivered_app t1 t2 : delivered (t1 ++ t2) = delivered t1 ++ delivered t2.
Proof.
  induction t1 as [|e t1 IH]; [reflexivity|].
  destruct e; cbn [delivered app]; rewrite IH; auto using app_assoc.
Qed.

Lemma read_attempts_app t1 t2 :
  read_attempts (t1 ++ t2) = (read_attempts t1 + read_attempts t2)%nat.
Proof.
  induction t1 as [|e t1 IH]; [reflexivity|].
  destruct e; cbn [read_attempts app]; rewrite IH; reflexivity.
Qed.

Lemma empty_reads_app t1 t2 :
  empty_reads (t1 ++ t2) = (empty_reads t1 + empty_reads t2)%nat.
Proof.
  induction t1 as [|e t1 IH]; [reflexivity|].
  destruct e; cbn [empty_reads app]; rewrite IH; try reflexivity.
  now destruct (result <=? 0).
Qed.

(** What a read attempt returns: the number of bytes it stored, never
    more than asked for, or -1 with nothing stored. *)
Lemma port_read_spec len timeout u result stored u' :
  port_read len timeout u = ((result, stored), u') ->
  (result = Z.of_nat (List.length stored) \/ (result = -1 /\ stored = [])) /\
  (List.length stored <= Z.to_nat len)%nat /\
  trace u' = trace u ++ [UartRead len timeout stored result] /\
  tx_script u' = tx_script u.
Proof.
  unfold port_read. intros H.
  destruct (rx_script u) as [|[bytes|] rest]; inversion H; subst; clear H; cbn;
    repeat split; auto using firstn_le_length.
  all: try (apply Nat.le_0_l).
Qed.

(** On a silent port a read attempt returns no byte and leaves the port silent. *)
Lemma port_read_silent len timeout u :
  silent u ->
  exists result,
    result <= 0 /\
    fst (port_read len timeout u) = (result, []) /\
    silent (snd (port_read len timeout u)) /\
    trace (snd (port_read len timeout u)) = trace u ++ [UartRead len timeout [] result] /\
    tx_script (snd (port_read len timeout u)) = tx_script u.
Proof.
  intros [Hfifo Hscript]. unfold port_read.
  destruct (rx_script u) as [|[[|b bytes]|] rest] eqn:E; cbn in Hscript; try discriminate.
  - exists 0. rewrite Hfifo. cbn. rewrite firstn_nil, skipn_nil. cbn.
    repeat split; auto; lia.
  - exists 0. rewrite Hfifo. cbn. rewrite firstn_nil, skipn_nil. cbn.
    repeat split; auto; lia.
  - exists (-1). cbn. repeat split; auto; lia.
Qed.

(** ** The driver *)

(** Run the straight-line part of a member function. *)
Ltac run_methods :=
  cbv beta iota zeta delta
    [M16.bind M16.sendByte M16.vTaskDelay M16.Serial_printf M16.uart_write_bytes
     M16.on_port M16.ret M16.assign port_write record_event
     M16.sendPacket M16.sendPacket_struct M16.sendPacket_word];
  cbn [fst snd M16.uart_num M16.report rx_fifo rx_script tx_script trace].

Lemma to_uint8_small x : 0 <= x < 2 ^ 8 -> to_uint8 x = x.
Proof. intros Hx. unfold to_uint8. now apply Z.mod_small. Qed.

(** The polling loop does not touch the report. *)
Lemma poll_preserves_report fuel :
  forall reportBytes retries bytesRead m,
    M16.report (snd (M16.poll fuel reportBytes retries bytesRead m)) = M16.report m.
Proof.
  induction fuel as [|fuel IH]; intros rb retries bytesRead m; cbn [M16.poll].
  - destruct (bytesRead <? M16.sizeof_reportBytes); reflexivity.
  - destruct (bytesRead <? M16.sizeof_reportBytes); [|reflexivity].
    unfold M16.bind, M16.uart_read_bytes, M16.on_port.
    destruct (port_read _ _ _) as [[result stored] u'].
    destruct (0 <? result); [now rewrite IH|].
    destruct (100 <? retries); [reflexivity|now rewrite IH].
Qed.

(** The polling loop writes nothing. *)
Lemma poll_writes_nothing fuel :
  forall reportBytes retries bytesRead m,
    written (trace (M16.uart_num (snd (M16.poll fuel reportBytes retries bytesRead m)))) =
    written (trace (M16.uart_num m)).
Proof.
  induction fuel as [|fuel IH]; intros rb retries bytesRead m; cbn [M16.poll].
  - destruct (bytesRead <? M16.sizeof_reportBytes); reflexivity.
  - destruct (bytesRead <? M16.sizeof_reportBytes); [|reflexivity].
    unfold M16.bind, M16.uart_read_bytes, M16.on_port.
    destruct (port_read _ _ _) as [[result stored] u'] eqn:E.
    apply port_read_spec in E. destruct E as (_ & _ & Ht & _).
    assert (Hw : written (trace u') = written (trace (M16.uart_num m))).
    { rewrite Ht, written_app. cbn. apply app_nil_r. }
    destruct (0 <? result); [now rewrite IH|].
    destruct (100 <? retries); [exact Hw|now rewrite IH].
Qed.

(** The model of the loop is never cut short: 18 + 102 iterations are
    enough from the start, and fewer once bytes or retries are counted. *)
Lemma poll_fuel_suffices fuel :
  forall reportBytes retries bytesRead m,
    0 <= retries <= 101 ->
    (Z.to_nat (M16.sizeof_reportBytes - bytesRead) + Z.to_nat (102 - retries) <= fuel)%nat ->
    fst (M16.poll fuel reportBytes retries bytesRead m) <> M16.FuelExhausted.
Proof.
  unfold M16.sizeof_reportBytes.
  induction fuel as [|fuel IH]; intros rb retries bytesRead m Hr Hfuel; cbn [M16.poll];
    unfold M16.sizeof_reportBytes;
    destruct (Z.ltb_spec bytesRead 18) as [Hlt|Hge]; try (cbn; discriminate).
  - lia.
  - unfold M16.bind, M16.uart_read_bytes, M16.on_port.
    destruct (port_read _ _ _) as [[result stored] u'].
    destruct (Z.ltb_spec 0 result) as [Hpos|Hnon].
    + apply IH; [assumption|lia].
    + destruct (Z.ltb_spec 100 retries) as [Hmax|Hmore]; [cbn; discriminate|].
      rewrite to_uint8_small by lia. apply IH; lia.
Qed.

(** When the loop ends with a full array, the array holds exactly the
    bytes the read calls delivered, in order, and there are 18 of them. *)
Lemma poll_collected fuel :
  forall reportBytes retries bytesRead m collected m',
    Z.of_nat (List.length reportBytes) = bytesRead ->
    bytesRead <= M16.sizeof_reportBytes ->
    M16.poll fuel reportBytes retries bytesRead m = (M16.Collected collected, m') ->
    exists got,
      collected = reportBytes ++ got /\
      List.length collected = 18%nat /\
      delivered (trace (M16.uart_num m')) = delivered (trace (M16.uart_num m)) ++ got.
Proof.
  unfold M16.sizeof_reportBytes.
  induction fuel as [|fuel IH]; intros rb retries bytesRead m collected m' Hlen Hle;
    cbn [M16.poll]; unfold M16.sizeof_reportBytes;
    destruct (Z.ltb_spec bytesRead 18) as [Hlt|Hge]; unfold M16.ret; intros H;
    try discriminate.
  - inversion H; subst. exists []. rewrite !app_nil_r. repeat split; lia.
  - revert H. unfold M16.bind, M16.uart_read_bytes, M16.on_port.
    destruct (port_read _ _ _) as [[result stored] u'] eqn:E.
    apply port_read_spec in E. destruct E as (Hres & Hmax & Ht & _).
    destruct (Z.ltb_spec 0 result) as [Hpos|Hnon].
    + intros H. apply IH in H.
      * destruct H as (got & -> & Hl & Hd). exists (stored ++ got).
        cbn [M16.uart_num] in Hd.
        rewrite Hd, Ht, delivered_app. cbn [delivered].
        rewrite !app_nil_r, <- !app_assoc in *. repeat split; auto.
      * destruct Hres as [Hres|[Hres _]]; [|lia]. rewrite length_app. lia.
      * destruct Hres as [Hres|[Hres _]]; lia.
    + assert (Hs : stored = []).
      { destruct Hres as [Hres|[_ Hs]]; [|exact Hs].
        destruct stored; [reflexivity|cbn in Hres; lia]. }
      destruct (100 <? retries); [discriminate|].
      intros H. apply IH in H; [|assumption|lia].
      destruct H as (got & -> & Hl & Hd). exists got.
      cbn [M16.uart_num] in Hd.
      rewrite Hd, Ht, delivered_app, Hs. cbn [delivered].
      rewrite !app_nil_r. repeat split; auto.
  - inversion H; subst. exists []. rewrite !app_nil_r. repeat split; lia.
Qed.

(** On a silent port the loop gives up after it has made a read attempt
    for every value 0, 1, ..., 101 of the retry counter. *)
Lemma poll_silent fuel :
  forall reportBytes retries bytesRead m,
    silent (M16.uart_num m) ->
    bytesRead < M16.sizeof_reportBytes ->
    0 <= retries <= 101 ->
    (Z.to_nat (102 - retries) <= fuel)%nat ->
    fst (M16.poll fuel reportBytes retries bytesRead m) = M16.RetriesExceeded /\
    read_attempts (trace (M16.uart_num (snd (M16.poll fuel reportBytes retries bytesRead m)))) =
    (read_attempts (trace (M16.uart_num m)) + Z.to_nat (102 - retries))%nat.
Proof.
  unfold M16.sizeof_reportBytes.
  induction fuel as [|fuel IH]; intros rb retries bytesRead m Hs Hlt Hr Hfuel; [lia|].
  cbn [M16.poll]. unfold M16.sizeof_reportBytes.
  destruct (Z.ltb_spec bytesRead 18) as [_|?]; [|lia].
  unfold M16.bind, M16.uart_read_bytes, M16.on_port.
  destruct (port_read_silent (18 - bytesRead) 10 _ Hs) as (result & Hres & Hfst & Hs' & Ht & _).
  destruct (port_read _ _ _) as [[result' stored] u']. cbn [fst snd] in *.
  inversion Hfst; subst result' stored.
  destruct (Z.ltb_spec 0 result) as [?|_]; [lia|].
  destruct (Z.ltb_spec 100 retries) as [Hmax|Hmore].
  - cbn [M16.ret fst snd M16.uart_num]. unfold M16.ret; cbn [fst snd M16.uart_num].
    split; [reflexivity|].
    rewrite Ht, read_attempts_app. cbn [read_attempts].
    replace retries with 101 by lia. reflexivity.
  - rewrite to_uint8_small by lia.
    destruct (IH rb (retries + 1) bytesRead {| M16.uart_num := u'; M16.report := M16.report m |})
      as [Hexit Hreads]; try assumption; try lia.
    split; [exact Hexit|].
    rewrite Hreads. cbn [M16.uart_num]. rewrite Ht, read_attempts_app. cbn [read_attempts].
    lia.
Qed.

(** [requestReport] always returns: the model of its loop is not cut short. *)
Lemma requestReport_returns m : exists b, fst (M16.requestReport m) = Some b.
Proof.
  unfold M16.requestReport. run_methods.
  match goal with
  | |- context [M16.poll ?f ?a ?b ?c ?s] =>
      pose proof (poll_fuel_suffices f a b c s) as Hfuel;
      destruct (M16.poll f a b c s) as [[rb| |] m2]
  end; cbn [fst] in *.
  - now exists true.
  - now exists false.
  - exfalso. apply Hfuel; [lia| |reflexivity].
    unfold M16.poll_fuel, M16.sizeof_reportBytes. lia.
Qed.

(** On a port whose every read attempt yields zero bytes, [requestReport]
    returns [false] after 102 read attempts. *)
Lemma requestReport_silent m :
  silent (M16.uart_num m) ->
  fst (M16.requestReport m) = Some false /\
  read_attempts (trace (M16.uart_num (snd (M16.requestReport m)))) =
  (read_attempts (trace (M16.uart_num m)) + 102)%nat.
Proof.
  intros [Hfifo Hscript]. unfold M16.requestReport. run_methods.
  match goal with
  | |- context [M16.poll ?f ?a ?b ?c ?s] =>
      destruct (poll_silent f a b c s) as [Hexit Hreads];
      [ split; assumption | reflexivity | lia | unfold M16.poll_fuel; lia | ];
      destruct (M16.poll f a b c s) as [exit m2]
  end.
  cbn [fst snd M16.uart_num trace] in *. subst exit. cbn [fst snd].
  split; [reflexivity|].
  rewrite Hreads, !read_attempts_app. cbn. lia.
Qed.

(** The mode switch and the power level: the bytes and the waits between them. *)
Example switchOperationMode_trace :
  trace (M16.uart_num (snd (M16.switchOperationMode quiet_modem))) =
  [UartWrite [0x6d] 1; TaskDelay 1000; UartWrite [0x6d] 1].
Proof. reflexivity. Qed.

Example setPowerLevel_boundary :
  trace (M16.uart_num (snd (M16.setPowerLevel 0 quiet_modem))) = [] /\
  trace (M16.uart_num (snd (M16.setPowerLevel 5 quiet_modem))) = [] /\
  trace (M16.uart_num (snd (M16.setPowerLevel 4 quiet_modem))) =
  [UartWrite [0x6c] 1; TaskDelay 1000; UartWrite [0x6c] 1; TaskDelay 1500;
   UartWrite [0x34] 1].
Proof. repeat split. Qed.

Example setCommunicationChannel_trace :
  trace (M16.uart_num (snd (M16.setCommunicationChannel 12 quiet_modem))) =
  [UartWrite [0x63] 1; TaskDelay 1000; UartWrite [0x63] 1; TaskDelay 1;
   UartWrite [0x63] 1].
Proof. reflexivity. Qed.

(** C3, as the source has it. A channel outside 1..12 sends no byte, and
    the call returns as every call does: the function returns nothing, so
    no error reaches the caller; the rejection only leaves the line
    "Wrong channel" on the console. Channels 1 to 9 send the byte 0x63 twice
    and then the digit '0'+channel; channels 10 to 12 send 0x63 twice and
    then the letter 'a'+(channel-10); so channel 1 ends in '1' (0x31) and
    channel 12 in 'c' (0x63). *)
Theorem setCommunicationChannel_bytes m channel :
  let after := M16.setCommunicationChannel channel m in
  caller_view after = (tt, M16.report m) /\
  (channel < 1 \/ 12 < channel ->
   written (trace (M16.uart_num (snd after))) = written (trace (M16.uart_num m)) /\
   trace (M16.uart_num (snd after)) =
   trace (M16.uart_num m) ++ [SerialPrint ("Wrong channel" ++ newline)]) /\
  (1 <= channel <= 9 ->
   written (trace (M16.uart_num (snd after))) =
   written (trace (M16.uart_num m)) ++ [0x63; 0x63; 0x30 + channel]) /\
  (10 <= channel <= 12 ->
   written (trace (M16.uart_num (snd after))) =
   written (trace (M16.uart_num m)) ++ [0x63; 0x63; 0x61 + (channel - 10)]).
Proof.
  cbv zeta. split.
  { unfold caller_view, M16.setCommunicationChannel.
    destruct ((channel <? 1) || (12 <? channel)); [reflexivity|].
    destruct (channel <=? 9); reflexivity. }
  unfold M16.setCommunicationChannel. split; [|split]; intros H.
  - replace ((channel <? 1) || (12 <? channel)) with true
      by (symmetry; apply orb_true_iff; rewrite !Z.ltb_lt; exact H).
    run_methods. split; [|reflexivity]. rewrite written_app. cbn. apply app_nil_r.
  - replace ((channel <? 1) || (12 <? channel)) with false
      by (symmetry; apply orb_false_iff; rewrite !Z.ltb_ge; lia).
    replace (channel <=? 9) with true by (symmetry; apply Z.leb_le; lia).
    run_methods. rewrite !written_app. cbn [written app].
    rewrite !to_uint8_small by lia. now rewrite <- !app_assoc.
  - replace ((channel <? 1) || (12 <? channel)) with false
      by (symmetry; apply orb_false_iff; rewrite !Z.ltb_ge; lia).
    replace (channel <=? 9) with false by (symmetry; apply Z.leb_gt; lia).
    run_methods. rewrite !written_app. cbn [written app].
    rewrite !to_uint8_small by lia. now rewrite <- !app_assoc.
Qed.

Lemma setCommunicationChannel_bytes_witness :
  written (trace (M16.uart_num (snd (M16.setCommunicationChannel 0 quiet_modem)))) = [] /\
  written (trace (M16.uart_num (snd (M16.setCommunicationChannel 13 quiet_modem)))) = [] /\
  written (trace (M16.uart_num (snd (M16.setCommunicationChannel 1 quiet_modem)))) =
  [0x63; 0x63; 0x31] /\
  written (trace (M16.uart_num (snd (M16.setCommunicationChannel 12 quiet_modem)))) =
  [0x63; 0x63; 0x63].
Proof.
  split; [|split; [|split]].
  - destruct (proj1 (proj2 (setCommunicationChannel_bytes quiet_modem 0))) as [H _];
      [lia|exact H].
  - destruct (proj1 (proj2 (setCommunicationChannel_bytes quiet_modem 13))) as [H _];
      [lia|exact H].
  - apply (proj1 (proj2 (proj2 (setCommunicationChannel_bytes quiet_modem 1)))). lia.
  - apply (proj2 (proj2 (proj2 (setCommunicationChannel_bytes quiet_modem 12)))). lia.
Defined.

(** C3, as stated, fails: what the call gives back for channel 0, which
    is rejected, is what it gives back for channel 1, which is accepted
    (nothing is returned and the report is untouched), so no reading of it
    yields [InvalidArgument] for the one and success for the other. *)
Lemma setCommunicationChannel_reports_no_error : ~ channel_error_is_reported.
Proof.
  intros [status [Hbad Hgood]].
  change (caller_view (M16.setCommunicationChannel 0 quiet_modem))
    with (tt, zero_report) in Hbad.
  change (caller_view (M16.setCommunicationChannel 1 quiet_modem))
    with (tt, zero_report) in Hgood.
  congruence.
Qed.

(** C4. On the port where no byte ever arrives, [requestReport] returns
    [false] and no report is stored, but only after 102 read attempts that
    yield zero bytes, not after 100. *)
Theorem requestReport_quiet_port_102_attempts :
  fst (M16.requestReport quiet_modem) = Some false /\
  read_attempts (trace (M16.uart_num (snd (M16.requestReport quiet_modem)))) = 102%nat /\
  empty_reads (trace (M16.uart_num (snd (M16.requestReport quiet_modem)))) = 102%nat /\
  M16.report (snd (M16.requestReport quiet_modem)) = zero_report.
Proof. vm_compute. repeat split. Qed.

(** C5. When [requestReport] returns [false], the stored report is the
    report the object held before the call. *)
Theorem requestReport_timeout_keeps_report m :
  fst (M16.requestReport m) = Some false ->
  M16.report (snd (M16.requestReport m)) = M16.report m.
Proof.
  unfold M16.requestReport. run_methods.
  match goal with
  | |- context [M16.poll ?f ?a ?b ?c ?s] =>
      pose proof (poll_preserves_report f a b c s) as Hp;
      destruct (M16.poll f a b c s) as [[rb| |] m2]
  end; cbn [fst snd M16.report] in *; intros H; try discriminate.
  exact Hp.
Qed.

Lemma requestReport_timeout_keeps_report_witness :
  M16.report
    (snd (M16.requestReport {| M16.uart_num := quiet_port; M16.report := stale_report |})) =
  stale_report.
Proof.
  apply (requestReport_timeout_keeps_report
           {| M16.uart_num := quiet_port; M16.report := stale_report |}).
  vm_compute. reflexivity.
Defined.

(** C7. When the 18 bytes of [report_frame] arrive in one read,
    [requestReport] returns [true] and the stored report has
    startOfFrame 0xAA, transportBlock 0x0102, chipID 0x1234, hwRev 1,
    channel 13, tbValid 0, txComplete 1 and powerLevel 1, whatever the
    report held before and whatever follows on the port. *)
Theorem requestReport_parses_frame
  (before : M16.Report) (later : list RxSlot) (statuses : list Z) (past : list Event) :
  let m := {| M16.uart_num := {| rx_fifo := [];
                                 rx_script := Arrive report_frame :: later;
                                 tx_script := statuses;
                                 trace := past |};
              M16.report := before |} in
  let after := M16.requestReport m in
  fst after = Some true /\
  M16.startOfFrame (M16.report (snd after)) = 0xAA /\
  M16.transportBlock (M16.report (snd after)) = 0x0102 /\
  M16.chipID (M16.report (snd after)) = 0x1234 /\
  M16.hwRev (M16.report (snd after)) = 1 /\
  M16.channel (M16.report (snd after)) = 13 /\
  M16.tbValid (M16.report (snd after)) = 0 /\
  M16.txComplete (M16.report (snd after)) = 1 /\
  M16.powerLevel (M16.report (snd after)) = 1.
Proof. cbv zeta. vm_compute. repeat split. Qed.

(** The other fields of the same report. *)
Example requestReport_parses_frame_rest :
  let after := M16.requestReport {| M16.uart_num := frame_port; M16.report := zero_report |} in
  M16.bitErrorRate (M16.report (snd after)) = 0x10 /\
  M16.signalPower (M16.report (snd after)) = 0x20 /\
  M16.noisePower (M16.report (snd after)) = 0x30 /\
  M16.packetValid (M16.report (snd after)) = 0x0005 /\
  M16.packedInvalid (M16.report (snd after)) = 0x01 /\
  M16.firmwareVersion (M16.report (snd after)) = 0x02 /\
  M16.timeSinceBoot (M16.report (snd after)) = 0x000100 /\
  M16.diagnostic (M16.report (snd after)) = 1 /\
  M16.endOfFrame (M16.report (snd after)) = 0x55 /\
  read_attempts (trace (M16.uart_num (snd after))) = 1%nat /\
  written (trace (M16.uart_num (snd after))) = [0x72; 0x72].
Proof. vm_compute. repeat split. Qed.

Lemma encode_is_uint16 id command data : 0 <= M16.encode id command data < 2 ^ 16.
Proof. unfold M16.encode, to_uint16. apply Z.mod_pos_bound. lia. Qed.

Lemma high_byte w : 0 <= w < 2 ^ 16 -> to_uint8 (Z.land (Z.shiftr w 8) 0xff) = w / 2 ^ 8.
Proof.
  intros Hw. rewrite mask8, Z.land_ones, Z.shiftr_div_pow2 by lia.
  unfold to_uint8. rewrite Z.mod_mod by lia.
  apply Z.mod_small. split; [apply Z.div_pos; lia|].
  apply Z.div_lt_upper_bound; lia.
Qed.

Lemma low_byte w : to_uint8 (Z.land w 0xff) = w mod 2 ^ 8.
Proof.
  rewrite mask8, Z.land_ones by lia. unfold to_uint8. now rewrite Z.mod_mod by lia.
Qed.

(** The word [M16::encode] builds, as a number: the low 4 bits of the id
    in bits 15..12, the low 4 bits of the command in bits 11..8 and the
    low 8 bits of the data in bits 7..0. *)
Lemma m16_encode_value id command data :
  M16.encode id command data =
  4096 * (id mod 16) + 256 * (command mod 16) + data mod 256.
Proof.
  rewrite m16_encode_word.
  rewrite (Z.or_to_plus (Z.lor _ _)) by bitwise.
  rewrite Z.or_to_plus by bitwise.
  rewrite !Z.shiftl_mul_pow2, !Z.land_ones by lia.
  change (2 ^ 4) with 16. change (2 ^ 8) with 256. change (2 ^ 12) with 4096.
  lia.
Qed.

(** C8. For every frame, [sendPacket] encodes it with the 4-4-8 layout
    of the driver and makes one write of exactly two bytes, the high byte
    of the encoded word and then its low byte, and it returns [true]
    whatever status the write returns; the overload that takes a
    [ProtocolStructure] does the same.  The encoded word is
    4096 (id mod 16) + 256 (command mod 16) + data mod 256, so the first
    byte written is 16 (id mod 16) + command mod 16 and the second is
    data mod 256. *)
Theorem sendPacket_two_bytes_msb_first m id command data :
  let word := M16.encode id command data in
  let after := M16.sendPacket id command data m in
  fst after = true /\
  (exists status,
      status = hd 2 (tx_script (M16.uart_num m)) /\
      trace (M16.uart_num (snd after)) =
      trace (M16.uart_num m) ++ [UartWrite [word / 2 ^ 8; word mod 2 ^ 8] status]) /\
  written (trace (M16.uart_num (snd after))) =
  written (trace (M16.uart_num m)) ++ [word / 2 ^ 8; word mod 2 ^ 8] /\
  2 ^ 8 * (word / 2 ^ 8) + word mod 2 ^ 8 = word /\
  M16.sendPacket_struct {| M16.id := id; M16.command := command; M16.data := data |} m =
  after /\
  word = 4096 * (id mod 16) + 256 * (command mod 16) + data mod 256 /\
  word / 2 ^ 8 = 16 * (id mod 16) + command mod 16 /\
  word mod 2 ^ 8 = data mod 256.
Proof.
  cbv zeta. pose proof (encode_is_uint16 id command data) as Hw.
  pose proof (m16_encode_value id command data) as Hv.
  run_methods. unfold M16.encode_struct.
  cbn [M16.id M16.command M16.data List.length Z.of_nat Pos.of_succ_nat Pos.succ].
  rewrite high_byte by assumption. rewrite low_byte.
  split; [reflexivity|]. split; [|split; [|split; [|split; [|split; [|split]]]]].
  - eexists. split; [reflexivity|].
    destruct (tx_script (M16.uart_num m)); reflexivity.
  - rewrite written_app. reflexivity.
  - symmetry. apply Z.div_mod. lia.
  - reflexivity.
  - exact Hv.
  - rewrite Hv. change (2 ^ 8) with 256.
    pose proof (Z.mod_pos_bound id 16 ltac:(lia)).
    pose proof (Z.mod_pos_bound command 16 ltac:(lia)).
    pose proof (Z.mod_pos_bound data 256 ltac:(lia)).
    symmetry. apply Z.div_unique with (r := data mod 256); lia.
  - rewrite Hv. change (2 ^ 8) with 256.
    pose proof (Z.mod_pos_bound id 16 ltac:(lia)).
    pose proof (Z.mod_pos_bound command 16 ltac:(lia)).
    pose proof (Z.mod_pos_bound data 256 ltac:(lia)).
    symmetry. apply Z.mod_unique with (q := 16 * (id mod 16) + command mod 16); lia.
Qed.

(** A write that fails does not change what [sendPacket] returns. *)
Example sendPacket_ignores_failed_write :
  fst (M16.sendPacket 3 (M16.Command_value M16.TEMP_SENSOR) 0x7F
         {| M16.uart_num := {| rx_fifo := []; rx_script := []; tx_script := [-1]; trace := [] |};
            M16.report := zero_report |}) = true /\
  trace (M16.uart_num
           (snd (M16.sendPacket 3 (M16.Command_value M16.TEMP_SENSOR) 0x7F
                   {| M16.uart_num := {| rx_fifo := []; rx_script := []; tx_script := [-1];
                                         trace := [] |};
                      M16.report := zero_report |}))) = [UartWrite [0x33; 0x7F] (-1)].
Proof. vm_compute. split; reflexivity. Qed.

(** C9, as the source has it. On every successful [requestReport], 18
    bytes were delivered by the port during the call, every field of the
    report other than [reserved] and [reserved2] is overwritten with a
    value computed from these bytes, and [reserved] and [reserved2] keep
    the values they had before the call. *)
Theorem requestReport_overwrites_all_but_reserved m :
  fst (M16.requestReport m) = Some true ->
  exists reportBytes,
    List.length reportBytes = 18%nat /\
    delivered (trace (M16.uart_num (snd (M16.requestReport m)))) =
    delivered (trace (M16.uart_num m)) ++ reportBytes /\
    M16.report (snd (M16.requestReport m)) =
    {| M16.startOfFrame := nth 0 reportBytes 0;
       M16.transportBlock :=
         to_uint16 (Z.lor (Z.shiftl (nth 1 reportBytes 0) 8) (nth 2 reportBytes 0));
       M16.bitErrorRate := nth 3 reportBytes 0;
       M16.signalPower := nth 4 reportBytes 0;
       M16.noisePower := nth 5 reportBytes 0;
       M16.packetValid :=
         to_uint16 (Z.lor (Z.shiftl (nth 6 reportBytes 0) 8) (nth 7 reportBytes 0));
       M16.packedInvalid := nth 8 reportBytes 0;
       M16.firmwareVersion := nth 9 reportBytes 0;
       M16.timeSinceBoot :=
         to_uint32 (Z.lor (Z.lor (Z.shiftl (nth 10 reportBytes 0) 16)
                                 (Z.shiftl (nth 11 reportBytes 0) 8))
                          (nth 12 reportBytes 0));
       M16.chipID :=
         to_uint16 (Z.lor (Z.shiftl (nth 13 reportBytes 0) 8) (nth 14 reportBytes 0));
       M16.hwRev := to_uint8 (Z.land (nth 15 reportBytes 0) 0x03);
       M16.channel := to_uint8 (Z.shiftr (Z.land (nth 15 reportBytes 0) 0x3C) 2);
       M16.tbValid := to_uint8 (Z.shiftr (Z.land (nth 15 reportBytes 0) 0x40) 6);
       M16.txComplete := to_uint8 (Z.shiftr (Z.land (nth 15 reportBytes 0) 0x80) 7);
       M16.diagnostic := to_uint8 (Z.land (nth 16 reportBytes 0) 0x01);
       M16.reserved := M16.reserved (M16.report m);
       M16.powerLevel := to_uint8 (Z.shiftr (Z.land (nth 16 reportBytes 0) 0x0C) 2);
       M16.reserved2 := M16.reserved2 (M16.report m);
       M16.endOfFrame := nth 17 reportBytes 0 |}.
Proof.
  unfold M16.requestReport. run_methods.
  match goal with
  | |- context [M16.poll ?f ?a ?b ?c ?s] =>
      pose proof (poll_preserves_report f a b c s) as Hp;
      pose proof (poll_collected f a b c s) as Hc;
      destruct (M16.poll f a b c s) as [[rb| |] m2]
  end; cbn [fst snd M16.report M16.uart_num trace] in *; intros H; try discriminate.
  destruct (Hc rb m2) as (got & Hgot & Hlen & Hd);
    [reflexivity|unfold M16.sizeof_reportBytes; lia|reflexivity|].
  cbn [app] in Hgot. subst got.
  exists rb. split; [exact Hlen|]. split.
  - rewrite Hd, !delivered_app. cbn [delivered]. now rewrite !app_nil_r.
  - rewrite Hp. destruct (M16.report m).
    cbv beta iota delta
      [M16.set_startOfFrame M16.set_transportBlock M16.set_bitErrorRate
       M16.set_signalPower M16.set_noisePower M16.set_packetValid
       M16.set_packedInvalid M16.set_firmwareVersion M16.set_timeSinceBoot
       M16.set_chipID M16.set_hwRev M16.set_channel M16.set_tbValid
       M16.set_txComplete M16.set_diagnostic M16.set_powerLevel M16.set_endOfFrame
       M16.startOfFrame M16.transportBlock M16.bitErrorRate M16.signalPower
       M16.noisePower M16.packetValid M16.packedInvalid M16.firmwareVersion
       M16.timeSinceBoot M16.chipID M16.hwRev M16.channel M16.tbValid M16.txComplete
       M16.diagnostic M16.reserved M16.powerLevel M16.reserved2 M16.endOfFrame].
    reflexivity.
Qed.

Lemma requestReport_overwrites_all_but_reserved_witness :
  exists reportBytes,
    List.length reportBytes = 18%nat /\
    delivered (trace (M16.uart_num
      (snd (M16.requestReport {| M16.uart_num := frame_port; M16.report := stale_report |})))) =
    delivered (trace frame_port) ++ reportBytes /\
    M16.reserved (M16.report
      (snd (M16.requestReport {| M16.uart_num := frame_port; M16.report := stale_report |}))) =
    0x5A.
Proof.
  destruct (requestReport_overwrites_all_but_reserved
              {| M16.uart_num := frame_port; M16.report := stale_report |})
    as (reportBytes & Hlen & Hd & Hr).
  - vm_compute. reflexivity.
  - exists reportBytes. split; [exact Hlen|]. split; [exact Hd|].
    rewrite Hr. reflexivity.
Defined.

(** C9, as stated, fails: two objects on the same port, one holding
    [stale_report] and one holding [zero_report], both receive the same 18
    bytes and are left with different reports, since each keeps its own
    [reserved] and [reserved2]. *)
Lemma requestReport_report_not_fresh : ~ report_is_fresh.
Proof.
  intros Hfresh.
  specialize (Hfresh {| M16.uart_num := frame_port; M16.report := stale_report |}
                     {| M16.uart_num := frame_port; M16.report := zero_report |}
                     eq_refl).
  assert (Hok : fst (M16.requestReport
                       {| M16.uart_num := frame_port; M16.report := stale_report |}) =
                Some true) by (vm_compute; reflexivity).
  apply Hfresh in Hok. apply (f_equal M16.reserved) in Hok.
  vm_compute in Hok. discriminate.
Qed.

(** * Further properties of the codec *)

Lemma coder_decode_fields w :
  coder_decoder.decode w =
  {| coder_decoder.id := Z.land (Z.shiftr w 13) (Z.ones 3);
     coder_decoder.command := Z.land (Z.shiftr w 10) (Z.ones 3);
     coder_decoder.data := Z.land w (Z.ones 10) |}.
Proof. unfold coder_decoder.decode. to_ones. f_equal; bitwise. Qed.

Lemma land_ones_range x k : 0 <= k -> 0 <= Z.land x (Z.ones k) < 2 ^ k.
Proof. intros Hk. rewrite Z.land_ones by assumption. apply Z.mod_pos_bound. lia. Qed.

(** X1. Both encoders cut every argument to its field: the word built
    from any id, command and data is the word built from their low bits
    (3, 3 and 10 for [coder_decoder::encode]; 4, 4 and 8 for
    [M16::encode]). *)
Theorem encode_truncates_fields id command data :
  coder_decoder.encode id command data =
  coder_decoder.encode (Z.land id 0x07) (Z.land command 0x07) (Z.land data 0x03FF) /\
  M16.encode id command data =
  M16.encode (Z.land id 0x0F) (Z.land command 0x0F) (Z.land data 0x00FF).
Proof. split; [apply coder_encode_masks|apply m16_encode_masks]. Qed.

(** X2. Whatever word is decoded, every decoded field fits its width:
    id and command below 8 and data below 1024 for [coder_decoder::decode],
    id and command below 16 and data below 256 for [M16::decode]. *)
Theorem decode_fields_fit w :
  (0 <= coder_decoder.id (coder_decoder.decode w) < 2 ^ 3 /\
   0 <= coder_decoder.command (coder_decoder.decode w) < 2 ^ 3 /\
   0 <= coder_decoder.data (coder_decoder.decode w) < 2 ^ 10) /\
  (0 <= M16.id (M16.decode w) < 2 ^ 4 /\
   0 <= M16.command (M16.decode w) < 2 ^ 4 /\
   0 <= M16.data (M16.decode w) < 2 ^ 8).
Proof.
  rewrite coder_decode_fields, m16_decode_fields.
  cbn [coder_decoder.id coder_decoder.command coder_decoder.data M16.id M16.command M16.data].
  repeat split; apply land_ones_range; lia.
Qed.

(** X3. On every command that fits 3 bits, so on every enumerator, the
    earlier encoder [code] builds the word [encode] builds, for any id
    and data. *)
Theorem code_matches_encode id command data :
  0 <= command < 2 ^ 3 ->
  coder_decoder.code id command data = coder_decoder.encode id command data.
Proof. apply code_agrees_with_encode. Qed.

Lemma code_matches_encode_witness :
  coder_decoder.code 0xFF (coder_decoder.Command_value coder_decoder.TEST) 0xFFFF =
  coder_decoder.encode 0xFF (coder_decoder.Command_value coder_decoder.TEST) 0xFFFF.
Proof. apply (code_matches_encode 0xFF 5 0xFFFF). lia. Defined.

(** X4. Decoding a word built by [code] from a command that fits 3 bits
    returns the command, the low 3 bits of the id and the low 10 bits of
    the data; so the test program, which codes id 5, command TEST and data
    0b1111110101010101, reads back 5, TEST and 341. *)
Theorem decode_code id command data :
  0 <= command < 2 ^ 3 ->
  coder_decoder.decode (coder_decoder.code id command data) =
  {| coder_decoder.id := Z.land id 0x07;
     coder_decoder.command := command;
     coder_decoder.data := Z.land data 0x03FF |}.
Proof.
  intros Hc. rewrite code_agrees_with_encode, coder_decode_encode by assumption.
  rewrite (land_ones_small 3 command) by lia. reflexivity.
Qed.

Lemma decode_code_witness :
  coder_decoder.decode
    (coder_decoder.code_struct
       {| coder_decoder.id := 5;
          coder_decoder.command := coder_decoder.Command_value coder_decoder.TEST;
          coder_decoder.data := 0xFD55 |}) =
  {| coder_decoder.id := 5;
     coder_decoder.command := coder_decoder.Command_value coder_decoder.TEST;
     coder_decoder.data := 341 |}.
Proof.
  apply (decode_code 5 (coder_decoder.Command_value coder_decoder.TEST) 0xFD55).
  cbn. lia.
Defined.

(** X5. Frames whose fields fit their widths and differ are encoded to
    different words, by both encoders. *)
Theorem encode_injective :
  (forall id command data id' command' data',
      0 <= id < 2 ^ 3 -> 0 <= command < 2 ^ 3 -> 0 <= data < 2 ^ 10 ->
      0 <= id' < 2 ^ 3 -> 0 <= command' < 2 ^ 3 -> 0 <= data' < 2 ^ 10 ->
      coder_decoder.encode id command data = coder_decoder.encode id' command' data' ->
      id = id' /\ command = command' /\ data = data') /\
  (forall id command data id' command' data',
      0 <= id < 2 ^ 4 -> 0 <= command < 2 ^ 4 -> 0 <= data < 2 ^ 8 ->
      0 <= id' < 2 ^ 4 -> 0 <= command' < 2 ^ 4 -> 0 <= data' < 2 ^ 8 ->
      M16.encode id command data = M16.encode id' command' data' ->
      id = id' /\ command = command' /\ data = data').
Proof.
  split; intros id command data id' command' data' Hi Hc Hd Hi' Hc' Hd' Heq.
  - apply (f_equal coder_decoder.decode) in Heq.
    rewrite !coder_decode_encode in Heq.
    rewrite !land_ones_small in Heq by lia.
    now inversion Heq.
  - apply (f_equal M16.decode) in Heq.
    rewrite !m16_decode_encode in Heq.
    rewrite !land_ones_small in Heq by lia.
    now inversion Heq.
Qed.

Lemma encode_injective_witness :
  (5 = 5 /\ 5 = 5 /\ 341 = 341) /\ (9 = 9 /\ 6 = 6 /\ 200 = 200).
Proof.
  split.
  - apply (proj1 encode_injective 5 5 341 5 5 341); lia || reflexivity.
  - apply (proj2 encode_injective 9 6 200 9 6 200); lia || reflexivity.
Defined.

Lemma small_has_no_high_bit k i x : 0 <= k <= i -> 0 <= x < 2 ^ k -> Z.testbit x i = false.
Proof.
  intros Hk Hx. rewrite <- (Z.mod_small x (2 ^ k)) by assumption.
  apply Z.mod_pow2_bits_high. lia.
Qed.

(** X6. [M16::decode] returns the command bits as they are, and they
    name an enumerator of [Command] exactly when bit 11 of the word is 0:
    half of the 16 command codes of the 4-4-8 layout match no enumerator. *)
Theorem decode_command_is_enumerator w :
  (exists c, M16.command (M16.decode w) = M16.Command_value c) <->
  Z.testbit w 11 = false.
Proof.
  rewrite m16_decode_fields. cbn [M16.command].
  set (k := Z.land (Z.shiftr w 8) (Z.ones 4)).
  assert (Hk : 0 <= k < 2 ^ 4) by (apply land_ones_range; lia).
  assert (Hbit : Z.testbit k 3 = Z.testbit w 11).
  { unfold k. rewrite Z.land_spec, Z.shiftr_spec by lia.
    change (Z.testbit (Z.ones 4) 3) with true. now rewrite andb_true_r. }
  rewrite <- Hbit. split.
  - intros [c Hc]. apply (small_has_no_high_bit 3); [lia|].
    rewrite Hc. destruct c; cbn; lia.
  - intros H3.
    assert (Hlt : k < 2 ^ 3).
    { destruct (Z.lt_ge_cases k (2 ^ 3)) as [|Hge]; [assumption|exfalso].
      assert (Hk3 : Z.testbit k 3 = true).
      { apply Z.testbit_true; [lia|].
        replace (k / 2 ^ 3) with 1; [reflexivity|].
        apply Z.div_unique with (r := k - 8); lia. }
      congruence. }
    assert (Hcases : k = 0 \/ k = 1 \/ k = 2 \/ k = 3 \/ k = 4 \/ k = 5 \/ k = 6 \/ k = 7)
      by lia.
    destruct Hcases as [H|[H|[H|[H|[H|[H|[H|H]]]]]]]; rewrite H;
      [exists M16.HI|exists M16.REQUEST_DATA|exists M16.FINISHED|exists M16.TEMP_SENSOR
      |exists M16.PRESSURE_SENSOR|exists M16.CONDUCTIVITY_SENSOR|exists M16.PH_SENSOR
      |exists M16.SENSOR_DATA_RECEIVED]; reflexivity.
Qed.

(** * Further properties of the driver *)

(** ** The polling loop, read by read *)

(** One read attempt of the loop: what it returns, what it stores and
    what it adds to the trace. *)
Lemma port_read_accounting len timeout u result stored u' :
  port_read len timeout u = ((result, stored), u') ->
  ((0 < result /\ result = Z.of_nat (List.length stored) /\
    empty_reads (trace u') = empty_reads (trace u)) \/
   (result <= 0 /\ stored = [] /\
    empty_reads (trace u') = S (empty_reads (trace u)))) /\
  (List.length stored <= Z.to_nat len)%nat /\
  delivered (trace u') = delivered (trace u) ++ stored /\
  read_attempts (trace u') = S (read_attempts (trace u)).
Proof.
  intros H. destruct (port_read_spec _ _ _ _ _ _ H) as (Hres & Hmax & Ht & _).
  rewrite Ht, delivered_app, read_attempts_app, empty_reads_app.
  cbn [delivered read_attempts empty_reads]. rewrite app_nil_r.
  repeat split; try assumption; try lia.
  destruct (Z.leb_spec result 0) as [Hle|Hgt].
  - right. repeat split; try lia.
    destruct Hres as [Hres|[_ Hs]]; [|exact Hs].
    destruct stored; [reflexivity|cbn in Hres; lia].
  - left. repeat split; lia.
Qed.

(** The accounts of the loop: the bytes it takes from the port, the read
    attempts it makes and the empty reads among them, for each way it ends. *)
Lemma poll_accounting fuel :
  forall reportBytes retries bytesRead m exit m',
    Z.of_nat (List.length reportBytes) = bytesRead ->
    bytesRead <= 18 ->
    0 <= retries <= 101 ->
    (18 - bytesRead) + (102 - retries) <= Z.of_nat fuel ->
    M16.poll fuel reportBytes retries bytesRead m = (exit, m') ->
    exists got,
      delivered (trace (M16.uart_num m')) = delivered (trace (M16.uart_num m)) ++ got /\
      (bytesRead < 18 ->
       Z.of_nat (read_attempts (trace (M16.uart_num m'))) + 1 <=
       Z.of_nat (read_attempts (trace (M16.uart_num m))) + (18 - bytesRead) + (102 - retries)) /\
      (bytesRead = 18 ->
       read_attempts (trace (M16.uart_num m')) = read_attempts (trace (M16.uart_num m))) /\
      match exit with
      | M16.Collected collected =>
          collected = reportBytes ++ got /\
          List.length collected = 18%nat /\
          Z.of_nat (empty_reads (trace (M16.uart_num m'))) + retries <=
          Z.of_nat (empty_reads (trace (M16.uart_num m))) + 101
      | M16.RetriesExceeded =>
          (List.length (reportBytes ++ got) < 18)%nat /\
          Z.of_nat (empty_reads (trace (M16.uart_num m'))) + retries =
          Z.of_nat (empty_reads (trace (M16.uart_num m))) + 102
      | M16.FuelExhausted => False
      end.
Proof.
  induction fuel as [|fuel IH]; intros rb retries bytesRead m exit m' Hlen Hle Hr Hfuel;
    cbn [M16.poll]; unfold M16.sizeof_reportBytes;
    destruct (Z.ltb_spec bytesRead 18) as [Hlt|Hge]; unfold M16.ret; intros H.
  - lia.
  - inversion H; subst exit m'. exists []. rewrite !app_nil_r.
    repeat split; lia.
  - revert H. unfold M16.bind, M16.uart_read_bytes, M16.on_port.
    destruct (port_read _ _ _) as [[result stored] u'] eqn:E.
    apply port_read_accounting in E. destruct E as (Hcase & Hmax & Hd & Hreads).
    destruct Hcase as [(Hpos & Hres & Hempty)|(Hnon & Hs & Hempty)].
    + destruct (Z.ltb_spec 0 result) as [_|?]; [|lia].
      intros H. apply IH in H; [| rewrite length_app; lia | lia | lia | lia].
      destruct H as (got & Hd' & Hr1 & Hr2 & Hexit).
      cbn [M16.uart_num] in *. exists (stored ++ got).
      rewrite Hd', Hd. rewrite ?Hreads, ?Hempty in *. rewrite <- ?app_assoc in *.
      split; [reflexivity|]. split; [|split; [lia|]].
      * intros _. destruct (Z.eq_dec (bytesRead + result) 18) as [Heq|Hne].
        -- rewrite (Hr2 Heq). lia.
        -- specialize (Hr1 ltac:(lia)). lia.
      * destruct exit; [| |assumption].
        -- destruct Hexit as (-> & Hl & He). repeat split; assumption.
        -- exact Hexit.
    + destruct (Z.ltb_spec 0 result) as [?|_]; [lia|]. subst stored.
      destruct (Z.ltb_spec 100 retries) as [Hmax'|Hmore].
      * intros H. inversion H; subst exit m'. cbn [M16.uart_num].
        exists []. rewrite Hd, Hreads, Hempty, ?app_nil_r.
        repeat split; lia.
      * rewrite to_uint8_small by lia.
        intros H. apply IH in H; [| lia | lia | lia | lia].
        destruct H as (got & Hd' & Hr1 & Hr2 & Hexit).
        cbn [M16.uart_num] in *. exists got.
        rewrite Hd', Hd. rewrite ?Hreads, ?Hempty, ?app_nil_r in *.
        split; [reflexivity|]. split; [|split; [lia|]].
        -- intros _. specialize (Hr1 Hlt). lia.
        -- destruct exit; [| |assumption].
           ++ destruct Hexit as (Hc & Hl & He). repeat split; try assumption. lia.
           ++ destruct Hexit as (Hl & He). split; [assumption|lia].
  - inversion H; subst exit m'. exists []. rewrite !app_nil_r.
    repeat split; lia.
Qed.

(** The shape of every run of [requestReport]: the two trigger bytes,
    then the loop, then the assignments, which touch only the report. *)
Lemma requestReport_cases m :
  exists s1 s2 m1 exit m2,
    M16.report m1 = M16.report m /\
    rx_fifo (M16.uart_num m1) = rx_fifo (M16.uart_num m) /\
    rx_script (M16.uart_num m1) = rx_script (M16.uart_num m) /\
    trace (M16.uart_num m1) =
    trace (M16.uart_num m) ++ [UartWrite [0x72] s1; TaskDelay 1000; UartWrite [0x72] s2] /\
    M16.poll M16.poll_fuel [] 0 0 m1 = (exit, m2) /\
    M16.uart_num (snd (M16.requestReport m)) = M16.uart_num m2 /\
    fst (M16.requestReport m) =
    match exit with
    | M16.Collected _ => Some true
    | M16.RetriesExceeded => Some false
    | M16.FuelExhausted => None
    end.
Proof.
  unfold M16.requestReport. run_methods.
  match goal with
  | |- context [M16.poll ?f ?a ?b ?c ?s] =>
      set (m1 := s); destruct (M16.poll f a b c m1) as [exit m2] eqn:E
  end.
  eexists _, _, m1, exit, m2. subst m1. cbn [M16.report M16.uart_num rx_fifo rx_script trace].
  repeat split; try reflexivity.
  - rewrite <- !app_assoc. reflexivity.
  - exact E.
  - destruct exit; reflexivity.
  - destruct exit; reflexivity.
Qed.

(** ** [requestReport] on an arbitrary port *)

Lemma poll_fuel_covers : (18 - 0) + (102 - 0) <= Z.of_nat M16.poll_fuel.
Proof. unfold M16.poll_fuel. lia. Qed.

(** X7. On every port [requestReport] returns, after at most 119 read
    attempts: each attempt either stores at least one of the 18 bytes or
    counts a retry, and the 102nd empty attempt ends the call. *)
Theorem requestReport_read_bound m :
  (exists b, fst (M16.requestReport m) = Some b) /\
  (read_attempts (trace (M16.uart_num (snd (M16.requestReport m)))) <=
   read_attempts (trace (M16.uart_num m)) + 119)%nat.
Proof.
  destruct (requestReport_cases m)
    as (s1 & s2 & m1 & exit & m2 & _ & _ & _ & Ht & Hpoll & Hport & Hret).
  destruct (poll_accounting M16.poll_fuel [] 0 0 m1 exit m2 eq_refl ltac:(lia) ltac:(lia)
              poll_fuel_covers Hpoll) as (got & _ & Hreads & _ & Hexit).
  specialize (Hreads ltac:(lia)).
  rewrite Ht, read_attempts_app in Hreads. cbn [read_attempts] in Hreads.
  rewrite Hret, Hport. split; [|lia].
  destruct exit; [now exists true|now exists false|contradiction].
Qed.

(** X8. Whatever the port does and however the call ends, [requestReport]
    writes the trigger byte 0x72 twice and nothing else. *)
Theorem requestReport_writes_two_triggers m :
  written (trace (M16.uart_num (snd (M16.requestReport m)))) =
  written (trace (M16.uart_num m)) ++ [0x72; 0x72].
Proof.
  destruct (requestReport_cases m)
    as (s1 & s2 & m1 & exit & m2 & _ & _ & _ & Ht & Hpoll & Hport & _).
  pose proof (poll_writes_nothing M16.poll_fuel [] 0 0 m1) as Hw.
  rewrite Hpoll in Hw. cbn [snd] in Hw.
  rewrite Hport, Hw, Ht, written_app. reflexivity.
Qed.

(** X9. The retry counter counts the empty read attempts of the whole
    call, not the consecutive ones. When [requestReport] returns [false],
    exactly 102 attempts of the call were empty, and the call has taken
    fewer than 18 bytes from the port, which are not kept; when it
    returns [true], at most 101 attempts were empty and exactly 18 bytes
    were taken. *)
Theorem requestReport_empty_reads m :
  (fst (M16.requestReport m) = Some false ->
   empty_reads (trace (M16.uart_num (snd (M16.requestReport m)))) =
   (empty_reads (trace (M16.uart_num m)) + 102)%nat /\
   exists got,
     delivered (trace (M16.uart_num (snd (M16.requestReport m)))) =
     delivered (trace (M16.uart_num m)) ++ got /\
     (List.length got < 18)%nat) /\
  (fst (M16.requestReport m) = Some true ->
   (empty_reads (trace (M16.uart_num (snd (M16.requestReport m)))) <=
    empty_reads (trace (M16.uart_num m)) + 101)%nat /\
   exists got,
     delivered (trace (M16.uart_num (snd (M16.requestReport m)))) =
     delivered (trace (M16.uart_num m)) ++ got /\
     List.length got = 18%nat).
Proof.
  destruct (requestReport_cases m)
    as (s1 & s2 & m1 & exit & m2 & _ & _ & _ & Ht & Hpoll & Hport & Hret).
  destruct (poll_accounting M16.poll_fuel [] 0 0 m1 exit m2 eq_refl ltac:(lia) ltac:(lia)
              poll_fuel_covers Hpoll) as (got & Hd & _ & _ & Hexit).
  rewrite Ht, delivered_app in Hd. cbn [delivered] in Hd. rewrite app_nil_r in Hd.
  rewrite Ht, empty_reads_app in Hexit. cbn [empty_reads app] in Hexit.
  rewrite Hret, Hport.
  split; intros H; destruct exit; try discriminate.
  - destruct Hexit as [Hlen He]. split; [lia|].
    exists got. split; [exact Hd|exact Hlen].
  - destruct Hexit as (-> & Hlen & He). split; [lia|].
    exists got. split; [exact Hd|exact Hlen].
Qed.

Lemma requestReport_empty_reads_witness :
  empty_reads (trace (M16.uart_num (snd (M16.requestReport partial_modem)))) = 102%nat /\
  (empty_reads (trace (M16.uart_num
     (snd (M16.requestReport {| M16.uart_num := frame_port; M16.report := zero_report |})))) <=
   101)%nat.
Proof.
  split.
  - destruct (proj1 (requestReport_empty_reads partial_modem)) as [H _];
      [vm_compute; reflexivity|exact H].
  - destruct (proj2 (requestReport_empty_reads
                       {| M16.uart_num := frame_port; M16.report := zero_report |}))
      as [H _]; [vm_compute; reflexivity|exact H].
Defined.

(** The report a successful [requestReport] leaves, as a function of the
    18 bytes the port delivered during the call. *)
Lemma requestReport_success m :
  fst (M16.requestReport m) = Some true ->
  exists reportBytes,
    List.length reportBytes = 18%nat /\
    delivered (trace (M16.uart_num (snd (M16.requestReport m)))) =
    delivered (trace (M16.uart_num m)) ++ reportBytes /\
    M16.report (snd (M16.requestReport m)) =
    M16.Build_Report
      (nth 0 reportBytes 0)
      (to_uint16 (Z.lor (Z.shiftl (nth 1 reportBytes 0) 8) (nth 2 reportBytes 0)))
      (nth 3 reportBytes 0) (nth 4 reportBytes 0) (nth 5 reportBytes 0)
      (to_uint16 (Z.lor (Z.shiftl (nth 6 reportBytes 0) 8) (nth 7 reportBytes 0)))
      (nth 8 reportBytes 0) (nth 9 reportBytes 0)
      (to_uint32 (Z.lor (Z.lor (Z.shiftl (nth 10 reportBytes 0) 16)
                               (Z.shiftl (nth 11 reportBytes 0) 8))
                        (nth 12 reportBytes 0)))
      (to_uint16 (Z.lor (Z.shiftl (nth 13 reportBytes 0) 8) (nth 14 reportBytes 0)))
      (to_uint8 (Z.land (nth 15 reportBytes 0) 0x03))
      (to_uint8 (Z.shiftr (Z.land (nth 15 reportBytes 0) 0x3C) 2))
      (to_uint8 (Z.shiftr (Z.land (nth 15 reportBytes 0) 0x40) 6))
      (to_uint8 (Z.shiftr (Z.land (nth 15 reportBytes 0) 0x80) 7))
      (to_uint8 (Z.land (nth 16 reportBytes 0) 0x01))
      (M16.reserved (M16.report m))
      (to_uint8 (Z.shiftr (Z.land (nth 16 reportBytes 0) 0x0C) 2))
      (M16.reserved2 (M16.report m))
      (nth 17 reportBytes 0).
Proof.
  unfold M16.requestReport. run_methods.
  match goal with
  | |- context [M16.poll ?f ?a ?b ?c ?s] =>
      pose proof (poll_preserves_report f a b c s) as Hp;
      pose proof (poll_collected f a b c s) as Hc;
      destruct (M16.poll f a b c s) as [[rb| |] m2]
  end; cbn [fst snd M16.report M16.uart_num trace] in *; intros H; try discriminate.
  destruct (Hc rb m2) as (got & Hgot & Hlen & Hd);
    [reflexivity|unfold M16.sizeof_reportBytes; lia|reflexivity|].
  cbn [app] in Hgot. subst got.
  exists rb. split; [exact Hlen|]. split.
  - rewrite Hd, !delivered_app. cbn [delivered]. now rewrite !app_nil_r.
  - rewrite Hp. destruct (M16.report m).
    cbv beta iota delta
      [M16.set_startOfFrame M16.set_transportBlock M16.set_bitErrorRate
       M16.set_signalPower M16.set_noisePower M16.set_packetValid
       M16.set_packedInvalid M16.set_firmwareVersion M16.set_timeSinceBoot
       M16.set_chipID M16.set_hwRev M16.set_channel M16.set_tbValid
       M16.set_txComplete M16.set_diagnostic M16.set_powerLevel M16.set_endOfFrame
       M16.startOfFrame M16.transportBlock M16.bitErrorRate M16.signalPower
       M16.noisePower M16.packetValid M16.packedInvalid M16.firmwareVersion
       M16.timeSinceBoot M16.chipID M16.hwRev M16.channel M16.tbValid M16.txComplete
       M16.diagnostic M16.reserved M16.powerLevel M16.reserved2 M16.endOfFrame].
    reflexivity.
Qed.

(** A bit field of a byte, taken by mask and shift, is the field of that
    width at that position. *)
Lemma bit_field b lo width :
  0 <= lo -> 0 <= width -> lo + width <= 8 ->
  to_uint8 (Z.shiftr (Z.land b (Z.shiftl (Z.ones width) lo)) lo) =
  Z.land (Z.shiftr b lo) (Z.ones width).
Proof. intros Hlo Hw Hsum. rewrite to_uint8_land. bitwise. Qed.

Lemma bit_field_range b lo width :
  0 <= lo -> 0 <= width -> lo + width <= 8 ->
  0 <= to_uint8 (Z.shiftr (Z.land b (Z.shiftl (Z.ones width) lo)) lo) < 2 ^ width.
Proof. intros. rewrite bit_field by assumption. now apply land_ones_range. Qed.

(** X10. After a successful [requestReport] the packed sub-fields are
    within their widths whatever bytes arrived: hwRev and powerLevel
    below 4, channel below 16 (so it can be 13, 14 or 15 although only
    channels 1 to 12 can be set), tbValid, txComplete and diagnostic 0 or
    1; and the counters fit 16 and 32 bits. *)
Theorem requestReport_fields_fit m :
  fst (M16.requestReport m) = Some true ->
  let r := M16.report (snd (M16.requestReport m)) in
  0 <= M16.hwRev r < 4 /\
  0 <= M16.channel r < 16 /\
  0 <= M16.tbValid r < 2 /\
  0 <= M16.txComplete r < 2 /\
  0 <= M16.diagnostic r < 2 /\
  0 <= M16.powerLevel r < 4 /\
  0 <= M16.transportBlock r < 2 ^ 16 /\
  0 <= M16.packetValid r < 2 ^ 16 /\
  0 <= M16.chipID r < 2 ^ 16 /\
  0 <= M16.timeSinceBoot r < 2 ^ 32.
Proof.
  intros H. destruct (requestReport_success m H) as (rb & _ & _ & Hr).
  cbv zeta. rewrite Hr.
  cbn [M16.hwRev M16.channel M16.tbValid M16.txComplete M16.diagnostic M16.powerLevel
       M16.transportBlock M16.packetValid M16.chipID M16.timeSinceBoot].
  repeat split.
  all: try (unfold to_uint16, to_uint32; apply Z.mod_pos_bound; lia).
  all: try (apply (bit_field_range _ 2 4); lia).
  all: try (apply (bit_field_range _ 6 1); lia).
  all: try (apply (bit_field_range _ 7 1); lia).
  all: try (apply (bit_field_range _ 2 2); lia).
  all: try (change 0x03 with (Z.shiftl (Z.ones 2) 0);
            rewrite <- (Z.shiftr_0_r (Z.land _ _)); apply (bit_field_range _ 0 2); lia).
  all: try (change 0x01 with (Z.shiftl (Z.ones 1) 0);
            rewrite <- (Z.shiftr_0_r (Z.land _ _)); apply (bit_field_range _ 0 1); lia).
Qed.

Lemma requestReport_fields_fit_witness :
  0 <= M16.channel (M16.report (snd (M16.requestReport
         {| M16.uart_num := frame_port; M16.report := zero_report |}))) < 16.
Proof.
  apply (requestReport_fields_fit {| M16.uart_num := frame_port; M16.report := zero_report |}).
  vm_compute. reflexivity.
Defined.

Lemma nth_is_uint8 (l : list Z) i : Forall is_uint8 l -> is_uint8 (nth i l 0).
Proof.
  intros Hl. revert i. induction Hl as [|x l Hx _ IH]; intros [|i]; cbn;
    try assumption; try (unfold is_uint8; lia). apply IH.
Qed.

(** Two bytes, high byte first, as a 16-bit number. *)
Lemma big_endian_16 hi lo :
  is_uint8 hi -> is_uint8 lo -> to_uint16 (Z.lor (Z.shiftl hi 8) lo) = 256 * hi + lo.
Proof.
  unfold is_uint8. intros Hhi Hlo.
  rewrite Z.or_to_plus.
  - rewrite Z.shiftl_mul_pow2 by lia. unfold to_uint16. rewrite Z.mod_small; lia.
  - rewrite <- (land_ones_small 8 lo) by lia. bitwise.
Qed.

(** Three bytes, high byte first, as a 32-bit number. *)
Lemma big_endian_24 hi mid lo :
  is_uint8 hi -> is_uint8 mid -> is_uint8 lo ->
  to_uint32 (Z.lor (Z.lor (Z.shiftl hi 16) (Z.shiftl mid 8)) lo) =
  65536 * hi + 256 * mid + lo.
Proof.
  unfold is_uint8. intros Hhi Hmid Hlo.
  rewrite (Z.or_to_plus (Z.shiftl hi 16)).
  - rewrite Z.or_to_plus.
    + rewrite !Z.shiftl_mul_pow2 by lia. unfold to_uint32. rewrite Z.mod_small; lia.
    + rewrite !Z.shiftl_mul_pow2 by lia.
      replace (hi * 2 ^ 16 + mid * 2 ^ 8) with (Z.shiftl (256 * hi + mid) 8)
        by (rewrite Z.shiftl_mul_pow2; lia).
      rewrite <- (land_ones_small 8 lo) by lia. bitwise.
  - rewrite <- (land_ones_small 8 mid) by lia. bitwise.
Qed.

(** X11. The status byte of the report is split without loss: when the
    call succeeds and byte 15 of the 18 bytes delivered is b, then
    hwRev + 4 channel + 64 tbValid + 128 txComplete = b. *)
Theorem requestReport_status_byte m reportBytes :
  fst (M16.requestReport m) = Some true ->
  delivered (trace (M16.uart_num (snd (M16.requestReport m)))) =
  delivered (trace (M16.uart_num m)) ++ reportBytes ->
  is_uint8 (nth 15 reportBytes 0) ->
  let r := M16.report (snd (M16.requestReport m)) in
  M16.hwRev r + 4 * M16.channel r + 64 * M16.tbValid r + 128 * M16.txComplete r =
  nth 15 reportBytes 0.
Proof.
  intros H Hd Hb. destruct (requestReport_success m H) as (rb & _ & Hd' & Hr).
  rewrite Hd in Hd'. apply app_inv_head in Hd'. subst rb.
  cbv zeta. rewrite Hr. cbn [M16.hwRev M16.channel M16.tbValid M16.txComplete].
  set (b := nth 15 reportBytes 0) in *. unfold is_uint8 in Hb.
  pose proof (bit_field b 0 2 ltac:(lia) ltac:(lia) ltac:(lia)) as F0.
  pose proof (bit_field b 2 4 ltac:(lia) ltac:(lia) ltac:(lia)) as F2.
  pose proof (bit_field b 6 1 ltac:(lia) ltac:(lia) ltac:(lia)) as F6.
  pose proof (bit_field b 7 1 ltac:(lia) ltac:(lia) ltac:(lia)) as F7.
  change (Z.shiftl (Z.ones 2) 0) with 0x03 in F0. rewrite Z.shiftr_0_r in F0.
  change (Z.shiftl (Z.ones 4) 2) with 0x3C in F2.
  change (Z.shiftl (Z.ones 1) 6) with 0x40 in F6.
  change (Z.shiftl (Z.ones 1) 7) with 0x80 in F7.
  rewrite F0, F2, F6, F7.
  rewrite !Z.land_ones, !Z.shiftr_div_pow2 by lia.
  change (2 ^ 0) with 1. change (2 ^ 1) with 2. change (2 ^ 2) with 4.
  change (2 ^ 4) with 16. change (2 ^ 6) with 64. change (2 ^ 7) with 128.
  rewrite Z.div_1_r.
  Z.div_mod_to_equations. lia.
Qed.

Lemma requestReport_status_byte_witness :
  let r := M16.report (snd (M16.requestReport
             {| M16.uart_num := frame_port; M16.report := zero_report |})) in
  M16.hwRev r + 4 * M16.channel r + 64 * M16.tbValid r + 128 * M16.txComplete r = 0xB5.
Proof.
  apply (requestReport_status_byte
           {| M16.uart_num := frame_port; M16.report := zero_report |} report_frame).
  - vm_compute. reflexivity.
  - vm_compute. reflexivity.
  - unfold is_uint8. cbn. lia.
Defined.

(** X12. The counters of the report are read high byte first: when the
    call succeeds on 18 delivered bytes b0..b17, transportBlock is
    256 b1 + b2, packetValid 256 b6 + b7, timeSinceBoot
    65536 b10 + 256 b11 + b12 and chipID 256 b13 + b14. *)
Theorem requestReport_counters_big_endian m reportBytes :
  fst (M16.requestReport m) = Some true ->
  delivered (trace (M16.uart_num (snd (M16.requestReport m)))) =
  delivered (trace (M16.uart_num m)) ++ reportBytes ->
  Forall is_uint8 reportBytes ->
  let r := M16.report (snd (M16.requestReport m)) in
  M16.transportBlock r = 256 * nth 1 reportBytes 0 + nth 2 reportBytes 0 /\
  M16.packetValid r = 256 * nth 6 reportBytes 0 + nth 7 reportBytes 0 /\
  M16.timeSinceBoot r =
  65536 * nth 10 reportBytes 0 + 256 * nth 11 reportBytes 0 + nth 12 reportBytes 0 /\
  M16.chipID r = 256 * nth 13 reportBytes 0 + nth 14 reportBytes 0.
Proof.
  intros H Hd Hb. destruct (requestReport_success m H) as (rb & _ & Hd' & Hr).
  rewrite Hd in Hd'. apply app_inv_head in Hd'. subst rb.
  cbv zeta. rewrite Hr.
  cbn [M16.transportBlock M16.packetValid M16.timeSinceBoot M16.chipID].
  rewrite !big_endian_16, big_endian_24 by (apply nth_is_uint8; assumption).
  repeat split.
Qed.

Lemma requestReport_counters_big_endian_witness :
  let r := M16.report (snd (M16.requestReport
             {| M16.uart_num := frame_port; M16.report := zero_report |})) in
  M16.transportBlock r = 256 * 0x01 + 0x02 /\
  M16.packetValid r = 256 * 0x00 + 0x05 /\
  M16.timeSinceBoot r = 65536 * 0x00 + 256 * 0x01 + 0x00 /\
  M16.chipID r = 256 * 0x12 + 0x34.
Proof.
  apply (requestReport_counters_big_endian
           {| M16.uart_num := frame_port; M16.report := zero_report |} report_frame).
  - vm_compute. reflexivity.
  - vm_compute. reflexivity.
  - repeat constructor; unfold is_uint8; lia.
Defined.

(** A read of as many bytes as wait at the head of the RX buffer returns
    them, unless the driver fails. *)
Lemma port_read_buffered len timeout u frame rest :
  rx_fifo u = frame ++ rest ->
  List.length frame = Z.to_nat len ->
  hd (Arrive []) (rx_script u) <> RxError ->
  exists arrived,
    arrived = next_arrival u /\
    port_read len timeout u =
    ((len_result frame, frame),
     {| rx_fifo := rest ++ arrived; rx_script := tl (rx_script u);
        tx_script := tx_script u;
        trace := trace u ++ [UartRead len timeout frame (len_result frame)] |}).
Proof.
  intros Hfifo Hlen Hok. unfold port_read, len_result, next_arrival.
  assert (Hfirst : forall arrived,
             firstn (Z.to_nat len) ((frame ++ rest) ++ arrived) = frame).
  { intros arrived. rewrite <- app_assoc, <- Hlen, firstn_app, firstn_all, Nat.sub_diag.
    cbn. apply app_nil_r. }
  assert (Hskip : forall arrived,
             skipn (Z.to_nat len) ((frame ++ rest) ++ arrived) = rest ++ arrived).
  { intros arrived. rewrite <- app_assoc, <- Hlen, skipn_app, skipn_all, Nat.sub_diag.
    reflexivity. }
  destruct (rx_script u) as [|[bytes|] later]; cbn [hd tl] in *;
    [exists []|exists bytes|congruence];
    rewrite Hfifo, Hfirst, Hskip; split; reflexivity.
Qed.

Lemma poll_done fuel reportBytes retries bytesRead m :
  18 <= bytesRead ->
  M16.poll fuel reportBytes retries bytesRead m = (M16.Collected reportBytes, m).
Proof.
  intros Hge. destruct fuel; cbn [M16.poll]; unfold M16.sizeof_reportBytes;
    destruct (Z.ltb_spec bytesRead 18); try lia; reflexivity.
Qed.

Lemma poll_step fuel reportBytes retries bytesRead m :
  bytesRead < 18 ->
  M16.poll (S fuel) reportBytes retries bytesRead m =
  let '((result, stored), u') := port_read (18 - bytesRead) 10 (M16.uart_num m) in
  let m' := {| M16.uart_num := u'; M16.report := M16.report m |} in
  if 0 <? result then M16.poll fuel (reportBytes ++ stored) retries (bytesRead + result) m'
  else if 100 <? retries then (M16.RetriesExceeded, m')
       else M16.poll fuel reportBytes (to_uint8 (retries + 1)) bytesRead m'.
Proof.
  intros Hlt. cbn [M16.poll]. unfold M16.sizeof_reportBytes.
  destruct (Z.ltb_spec bytesRead 18); [|lia].
  unfold M16.bind, M16.uart_read_bytes, M16.on_port, M16.ret.
  destruct (port_read _ _ _) as [[result stored] u'].
  destruct (0 <? result); [reflexivity|].
  destruct (100 <? retries); reflexivity.
Qed.

(** X13. When 18 bytes or more already wait in the RX buffer and the
    next read does not fail, [requestReport] succeeds with a single read
    attempt, takes exactly the first 18 bytes, and leaves the bytes after
    them in the buffer, followed by what arrived meanwhile. *)
Theorem requestReport_takes_first_18 m frame rest :
  rx_fifo (M16.uart_num m) = frame ++ rest ->
  List.length frame = 18%nat ->
  hd (Arrive []) (rx_script (M16.uart_num m)) <> RxError ->
  fst (M16.requestReport m) = Some true /\
  read_attempts (trace (M16.uart_num (snd (M16.requestReport m)))) =
  S (read_attempts (trace (M16.uart_num m))) /\
  delivered (trace (M16.uart_num (snd (M16.requestReport m)))) =
  delivered (trace (M16.uart_num m)) ++ frame /\
  rx_fifo (M16.uart_num (snd (M16.requestReport m))) =
  rest ++ next_arrival (M16.uart_num m).
Proof.
  intros Hfifo Hlen Hok.
  destruct (requestReport_cases m)
    as (s1 & s2 & m1 & exit & m2 & _ & Hf & Hs & Ht & Hpoll & Hport & Hret).
  change M16.poll_fuel with (S 119) in Hpoll.
  rewrite poll_step in Hpoll by lia.
  rewrite <- Hf in Hfifo. rewrite <- Hs in Hok.
  destruct (port_read_buffered (18 - 0) 10 (M16.uart_num m1) frame rest Hfifo
              ltac:(rewrite Hlen; reflexivity) Hok) as (arrived & Harr & Hread).
  rewrite Hread in Hpoll. unfold len_result in Hpoll. rewrite Hlen in Hpoll.
  cbn [Z.ltb Z.compare Z.of_nat Pos.of_succ_nat Pos.succ Z.add app] in Hpoll.
  rewrite poll_done in Hpoll by lia.
  inversion Hpoll; subst exit m2. clear Hpoll.
  rewrite Hret, Hport. cbn [M16.uart_num trace rx_fifo].
  rewrite Ht, !read_attempts_app, !delivered_app. cbn [read_attempts delivered].
  rewrite !app_nil_r, Harr. unfold next_arrival. rewrite Hs.
  repeat split. lia.
Qed.

Lemma requestReport_takes_first_18_witness :
  fst (M16.requestReport
         {| M16.uart_num := {| rx_fifo := report_frame ++ [0xAA; 0x07];
                               rx_script := []; tx_script := []; trace := [] |};
            M16.report := zero_report |}) = Some true /\
  rx_fifo (M16.uart_num (snd (M16.requestReport
         {| M16.uart_num := {| rx_fifo := report_frame ++ [0xAA; 0x07];
                               rx_script := []; tx_script := []; trace := [] |};
            M16.report := zero_report |}))) = [0xAA; 0x07].
Proof.
  destruct (requestReport_takes_first_18
              {| M16.uart_num := {| rx_fifo := report_frame ++ [0xAA; 0x07];
                                    rx_script := []; tx_script := []; trace := [] |};
                 M16.report := zero_report |} report_frame [0xAA; 0x07])
    as (Hret & _ & _ & Hrest).
  - reflexivity.
  - reflexivity.
  - cbn. discriminate.
  - split; [exact Hret|exact Hrest].
Defined.

(** ** Configuration calls and packets *)

(** X14. [setPowerLevel] sends nothing and leaves no trace when the level
    is outside 1..4; for a level in 1..4 it writes 0x6c, waits 1000 ms,
    writes 0x6c again, waits 1500 ms and writes the digit '0'+level,
    whatever the writes return. *)
Theorem setPowerLevel_trace m powerLevel :
  (powerLevel < 1 \/ 4 < powerLevel ->
   M16.setPowerLevel powerLevel m = (tt, m)) /\
  (1 <= powerLevel <= 4 ->
   exists s1 s2 s3,
     trace (M16.uart_num (snd (M16.setPowerLevel powerLevel m))) =
     trace (M16.uart_num m) ++
     [UartWrite [0x6c] s1; TaskDelay 1000; UartWrite [0x6c] s2; TaskDelay 1500;
      UartWrite [0x30 + powerLevel] s3]).
Proof.
  unfold M16.setPowerLevel. split; intros H.
  - replace ((powerLevel <? 1) || (4 <? powerLevel)) with true
      by (symmetry; apply orb_true_iff; rewrite !Z.ltb_lt; exact H).
    reflexivity.
  - replace ((powerLevel <? 1) || (4 <? powerLevel)) with false
      by (symmetry; apply orb_false_iff; rewrite !Z.ltb_ge; lia).
    run_methods. rewrite !to_uint8_small by lia.
    eexists _, _, _. rewrite <- !app_assoc. reflexivity.
Qed.

Lemma setPowerLevel_trace_witness :
  M16.setPowerLevel 0 quiet_modem = (tt, quiet_modem) /\
  M16.setPowerLevel 5 quiet_modem = (tt, quiet_modem) /\
  exists s1 s2 s3,
    trace (M16.uart_num (snd (M16.setPowerLevel 4 quiet_modem))) =
    trace (M16.uart_num quiet_modem) ++
    [UartWrite [0x6c] s1; TaskDelay 1000; UartWrite [0x6c] s2; TaskDelay 1500;
     UartWrite [0x30 + 4] s3].
Proof.
  split; [|split].
  - apply (proj1 (setPowerLevel_trace quiet_modem 0)). lia.
  - apply (proj1 (setPowerLevel_trace quiet_modem 5)). lia.
  - apply (proj2 (setPowerLevel_trace quiet_modem 4)). lia.
Defined.

(** X15. The calls that only send (the mode switch, the channel and power
    settings and [sendPacket]) never read from the port and never touch
    the report: the RX buffer, what is still to arrive and the report are
    as before the call. *)
Theorem sending_calls_leave_input_and_report m channel powerLevel id command data :
  let untouched (after : M16.M16) :=
    rx_fifo (M16.uart_num after) = rx_fifo (M16.uart_num m) /\
    rx_script (M16.uart_num after) = rx_script (M16.uart_num m) /\
    read_attempts (trace (M16.uart_num after)) = read_attempts (trace (M16.uart_num m)) /\
    M16.report after = M16.report m in
  untouched (snd (M16.switchOperationMode m)) /\
  untouched (snd (M16.setCommunicationChannel channel m)) /\
  untouched (snd (M16.setPowerLevel powerLevel m)) /\
  untouched (snd (M16.sendPacket id command data m)).
Proof.
  cbv zeta. unfold M16.switchOperationMode, M16.setCommunicationChannel, M16.setPowerLevel.
  destruct ((channel <? 1) || (12 <? channel)), (channel <=? 9),
    ((powerLevel <? 1) || (4 <? powerLevel));
    run_methods; rewrite ?read_attempts_app; cbn [read_attempts];
    rewrite ?Nat.add_0_r; repeat split.
Qed.

Lemma decode_bytes_of_word w :
  0 <= w < 2 ^ 16 ->
  M16.decode_bytes [w / 2 ^ 8; w mod 2 ^ 8] = Some (M16.decode w).
Proof.
  intros Hw. unfold M16.decode_bytes. rewrite m16_decode_fields.
  cbn [M16.id M16.command M16.data].
  rewrite <- Z.shiftr_div_pow2, <- Z.land_ones by lia.
  rewrite <- (land_ones_small 16 w) by lia.
  to_ones. do 2 f_equal; bitwise.
Qed.

(** X16. What [sendPacket] puts on the wire is what the byte-array
    [decode] reads: decoding the two bytes written for (id, command, data)
    returns the frame with each field cut to its width, so the frame
    itself when the fields fit. *)
Theorem sendPacket_then_decode m id command data :
  exists bytes,
    written (trace (M16.uart_num (snd (M16.sendPacket id command data m)))) =
    written (trace (M16.uart_num m)) ++ bytes /\
    M16.decode_bytes bytes =
    Some {| M16.id := Z.land id 0x0F;
            M16.command := Z.land command 0x0F;
            M16.data := Z.land data 0xFF |}.
Proof.
  pose proof (encode_is_uint16 id command data) as Hw.
  exists [M16.encode id command data / 2 ^ 8; M16.encode id command data mod 2 ^ 8].
  split.
  - run_methods. rewrite high_byte by assumption. rewrite low_byte.
    rewrite written_app. reflexivity.
  - rewrite decode_bytes_of_word by assumption. now rewrite m16_decode_encode.
Qed.

(** ** The first revision of [sendPacket] *)

Lemma rev1_packed ID data :
  to_uint16 (Z.lor (Z.shiftl ID 13) data) =
  Z.lor (Z.shiftl (Z.land ID (Z.ones 3)) 13) (Z.land data (Z.ones 16)).
Proof. rewrite to_uint16_land. bitwise. Qed.

Lemma rev1_sendPacket_run ID data m :
  M16_rev1.sendPacket ID data m =
  (true,
   {| M16.uart_num :=
        snd (port_write [to_uint16 (Z.lor (Z.shiftl ID 13) data) / 2 ^ 8;
                         to_uint16 (Z.lor (Z.shiftl ID 13) data) mod 2 ^ 8]
                        (M16.uart_num m));
      M16.report := M16.report m |}).
Proof.
  unfold M16_rev1.sendPacket.
  assert (Hp : 0 <= to_uint16 (Z.lor (Z.shiftl ID 13) data) < 2 ^ 16)
    by (unfold to_uint16; apply Z.mod_pos_bound; lia).
  set (p := to_uint16 (Z.lor (Z.shiftl ID 13) data)) in *.
  rewrite low_byte.
  replace (to_uint8 (Z.shiftr p 8)) with (p / 2 ^ 8).
  - reflexivity.
  - rewrite Z.shiftr_div_pow2 by lia. symmetry. apply to_uint8_small.
    split; [apply Z.div_pos; lia|apply Z.div_lt_upper_bound; lia].
Qed.

(** X17. The first [sendPacket(ID, data)]: for an id below 8 and data
    below 2^13 it writes, high byte first, the two bytes of the word
    ID * 2^13 + data, and returns [true]; so sendPacket(0x07, 0x1fff)
    writes 0xff 0xff, as the example sketch expects. *)
Theorem rev1_sendPacket_word m ID data :
  0 <= ID < 2 ^ 3 ->
  0 <= data < 2 ^ 13 ->
  let word := ID * 2 ^ 13 + data in
  fst (M16_rev1.sendPacket ID data m) = true /\
  written (trace (M16.uart_num (snd (M16_rev1.sendPacket ID data m)))) =
  written (trace (M16.uart_num m)) ++ [word / 2 ^ 8; word mod 2 ^ 8].
Proof.
  intros HID Hdata. cbv zeta. rewrite rev1_sendPacket_run. cbn [fst snd M16.uart_num].
  split; [reflexivity|].
  unfold port_write. cbn [snd trace]. rewrite written_app. cbn [written app].
  replace (to_uint16 (Z.lor (Z.shiftl ID 13) data)) with (ID * 2 ^ 13 + data);
    [reflexivity|].
  rewrite Z.or_to_plus.
  - rewrite Z.shiftl_mul_pow2 by lia. unfold to_uint16. rewrite Z.mod_small; lia.
  - rewrite <- (land_ones_small 13 data) by lia. bitwise.
Qed.

Lemma rev1_sendPacket_word_witness :
  fst (M16_rev1.sendPacket 0x07 0x1fff quiet_modem) = true /\
  written (trace (M16.uart_num (snd (M16_rev1.sendPacket 0x07 0x1fff quiet_modem)))) =
  [0xff; 0xff].
Proof. apply (rev1_sendPacket_word quiet_modem 0x07 0x1fff); lia. Defined.

(** X18. The first [sendPacket] cuts the id to 3 bits but does not cut
    the data to 13 bits: for any 16-bit data the word written has the low
    13 bits of the data, and its top 3 bits are the id OR-ed with bits
    13 to 15 of the data. *)
Theorem rev1_sendPacket_data_reaches_id m ID data :
  0 <= data < 2 ^ 16 ->
  exists hi lo,
    written (trace (M16.uart_num (snd (M16_rev1.sendPacket ID data m)))) =
    written (trace (M16.uart_num m)) ++ [hi; lo] /\
    0 <= hi < 2 ^ 8 /\ 0 <= lo < 2 ^ 8 /\
    Z.shiftr (2 ^ 8 * hi + lo) 13 = Z.lor (Z.land ID 0x07) (Z.shiftr data 13) /\
    Z.land (2 ^ 8 * hi + lo) (Z.ones 13) = Z.land data (Z.ones 13).
Proof.
  intros Hdata. rewrite rev1_sendPacket_run. cbn [fst snd M16.uart_num].
  assert (Hp : 0 <= to_uint16 (Z.lor (Z.shiftl ID 13) data) < 2 ^ 16)
    by (unfold to_uint16; apply Z.mod_pos_bound; lia).
  pose proof (rev1_packed ID data) as Hpacked.
  set (p := to_uint16 (Z.lor (Z.shiftl ID 13) data)) in *.
  exists (p / 2 ^ 8), (p mod 2 ^ 8).
  replace (2 ^ 8 * (p / 2 ^ 8) + p mod 2 ^ 8) with p by (apply Z.div_mod; lia).
  split; [|split; [|split; [|split]]].
  - unfold port_write. cbn [snd trace]. rewrite written_app. reflexivity.
  - split; [apply Z.div_pos; lia|apply Z.div_lt_upper_bound; lia].
  - apply Z.mod_pos_bound. lia.
  - rewrite Hpacked, mask3. rewrite (land_ones_small 16 data) by lia. bitwise.
  - rewrite Hpacked. bitwise.
Qed.

Lemma rev1_sendPacket_data_reaches_id_witness :
  exists hi lo,
    written (trace (M16.uart_num (snd (M16_rev1.sendPacket 0 0xE000 quiet_modem)))) =
    written (trace (M16.uart_num quiet_modem)) ++ [hi; lo] /\
    0 <= hi < 2 ^ 8 /\ 0 <= lo < 2 ^ 8 /\
    Z.shiftr (2 ^ 8 * hi + lo) 13 = Z.lor (Z.land 0 0x07) (Z.shiftr 0xE000 13) /\
    Z.land (2 ^ 8 * hi + lo) (Z.ones 13) = Z.land 0xE000 (Z.ones 13).
Proof. apply (rev1_sendPacket_data_reaches_id quiet_modem 0 0xE000). lia. Defined.

(** ** Draining the RX buffer *)

(** X19. [readRxBuff] returns -1 with nothing stored, or the number of
    bytes it stored, never more than [length]; and it always leaves the RX
    buffer empty, so that bytes which waited beyond [length] or arrived
    during the read are lost and [getRxBuffLength] then returns 0. *)
Theorem readRxBuff_flushes m length :
  let num := fst (fst (M16.readRxBuff length m)) in
  let data := snd (fst (M16.readRxBuff length m)) in
  let after := snd (M16.readRxBuff length m) in
  (num = len_result data \/ (num = -1 /\ data = [])) /\
  (List.length data <= Z.to_nat length)%nat /\
  rx_fifo (M16.uart_num after) = [] /\
  fst (M16.getRxBuffLength after) = 0 /\
  delivered (trace (M16.uart_num after)) = delivered (trace (M16.uart_num m)) ++ data /\
  M16.report after = M16.report m.
Proof.
  cbv zeta. unfold M16.readRxBuff, M16.getRxBuffLength, M16.bind, M16.uart_read_bytes,
    M16.uart_flush_input, M16.uart_get_buffered_data_len, M16.on_port, M16.ret.
  destruct (port_read length 100 (M16.uart_num m)) as [[num data] u'] eqn:E.
  apply port_read_spec in E. destruct E as (Hres & Hmax & Ht & _).
  cbn [fst snd port_flush_input port_buffered_data_len M16.uart_num M16.report
       rx_fifo trace List.length Z.of_nat].
  rewrite Ht, delivered_app. cbn [delivered]. rewrite app_nil_r.
  unfold len_result. repeat split; assumption.
Qed.

(** X20. Reading as many bytes as [getRxBuffLength] reports returns
    exactly the bytes that were waiting, in order, unless the driver
    fails; the buffer is empty afterwards, so bytes that arrived during
    the read are dropped. *)
Theorem getRxBuffLength_then_readRxBuff m :
  hd (Arrive []) (rx_script (M16.uart_num m)) <> RxError ->
  let len := fst (M16.getRxBuffLength m) in
  let after := M16.readRxBuff len (snd (M16.getRxBuffLength m)) in
  len = len_result (rx_fifo (M16.uart_num m)) /\
  fst after = (len, rx_fifo (M16.uart_num m)) /\
  rx_fifo (M16.uart_num (snd after)) = [] /\
  rx_script (M16.uart_num (snd after)) = tl (rx_script (M16.uart_num m)).
Proof.
  intros Hok. cbv zeta.
  unfold M16.readRxBuff, M16.getRxBuffLength, M16.bind, M16.uart_read_bytes,
    M16.uart_flush_input, M16.uart_get_buffered_data_len, M16.on_port, M16.ret.
  cbn [fst snd port_buffered_data_len M16.uart_num M16.report].
  destruct (port_read_buffered (Z.of_nat (List.length (rx_fifo (M16.uart_num m)))) 100
              (M16.uart_num m) (rx_fifo (M16.uart_num m)) [])
    as (arrived & _ & Hread).
  - now rewrite app_nil_r.
  - now rewrite Nat2Z.id.
  - exact Hok.
  - rewrite Hread.
    cbn [fst snd port_flush_input M16.uart_num M16.report rx_fifo rx_script].
    unfold len_result. repeat split.
Qed.

Lemma getRxBuffLength_then_readRxBuff_witness :
  fst (M16.readRxBuff (fst (M16.getRxBuffLength partial_modem))
         (snd (M16.getRxBuffLength partial_modem))) = (3, [0xAA; 0x01; 0x02]).
Proof.
  apply (getRxBuffLength_then_readRxBuff partial_modem). cbn. discriminate.
Defined.

(** ** [convertToBinary] *)

Lemma string_length_append (s1 s2 : string) :
  String.length (s1 ++ s2) = (String.length s1 + String.length s2)%nat.
Proof. induction s1 as [|c s1 IH]; cbn; [reflexivity|now rewrite IH]. Qed.

Lemma convertToBinary_loop_length count input output :
  String.length (convertToBinary_loop count input output) =
  (String.length output + count)%nat.
Proof.
  revert output. induction count as [|i IH]; intros output; cbn [convertToBinary_loop].
  - now rewrite Nat.add_0_r.
  - rewrite IH. destruct (negb _); rewrite string_length_append; cbn; lia.
Qed.

(** The loop only appends: what was written before stays in front. *)
Lemma convertToBinary_loop_cons count input c output :
  convertToBinary_loop count input (String c output) =
  String c (convertToBinary_loop count input output).
Proof.
  revert output. induction count as [|i IH]; intros output; cbn [convertToBinary_loop].
  - reflexivity.
  - destruct (negb _); cbn [String.append]; apply IH.
Qed.

Lemma digits_value_snoc digits :
  forall acc v,
    digits_value acc digits = Some v ->
    digits_value acc (digits ++ "0") = Some (2 * v) /\
    digits_value acc (digits ++ "1") = Some (2 * v + 1).
Proof.
  induction digits as [|c digits IH]; intros acc v H.
  - cbn in H. inversion H; subst. split; reflexivity.
  - cbn [String.append]. cbn [digits_value] in *.
    destruct c as [[] [] [] [] [] [] [] []]; try discriminate; apply IH; exact H.
Qed.

(** The test [input & (1 << i)] reads bit [i] of the input. *)
Lemma mask_test input i :
  0 <= i -> negb (Z.land input (Z.shiftl 1 i) =? 0) = Z.testbit input i.
Proof.
  intros Hi. rewrite Z.shiftl_1_l.
  destruct (Z.testbit input i) eqn:Hb.
  - apply negb_true_iff, Z.eqb_neq. intros H0.
    apply (f_equal (fun x => Z.testbit x i)) in H0.
    rewrite Z.land_spec, Z.pow2_bits_true, Hb, Z.bits_0 in H0 by assumption.
    discriminate.
  - apply negb_false_iff, Z.eqb_eq. apply Z.bits_inj'. intros n Hn.
    rewrite Z.land_spec, Z.bits_0, Z.pow2_bits_eqb by assumption.
    destruct (Z.eqb_spec i n) as [->|_]; [now rewrite Hb|apply andb_false_r].
Qed.

Lemma mod_pow2_succ input i :
  0 <= i ->
  input mod 2 ^ (i + 1) = Z.b2z (Z.testbit input i) * 2 ^ i + input mod 2 ^ i.
Proof.
  intros Hi. rewrite Z.pow_add_r, Z.pow_1_r by lia.
  rewrite Z.rem_mul_r by lia. rewrite Z.testbit_spec' by assumption. lia.
Qed.

Lemma convertToBinary_loop_value count :
  forall input digits v,
    digits_value 0 digits = Some v ->
    digits_value 0 (convertToBinary_loop count input digits) =
    Some (v * 2 ^ Z.of_nat count + input mod 2 ^ Z.of_nat count).
Proof.
  induction count as [|i IH]; intros input digits v Hv; cbn [convertToBinary_loop].
  - cbn. rewrite Z.mod_1_r, Hv. f_equal. lia.
  - rewrite mask_test by lia.
    destruct (digits_value_snoc digits 0 v Hv) as [H0 H1].
    rewrite Nat2Z.inj_succ, <- Z.add_1_r, mod_pow2_succ by lia.
    rewrite Z.pow_add_r, Z.pow_1_r by lia.
    destruct (Z.testbit input (Z.of_nat i)).
    + rewrite (IH _ _ _ H1). f_equal. cbn [Z.b2z]. lia.
    + rewrite (IH _ _ _ H0). f_equal. cbn [Z.b2z]. lia.
Qed.

(** X21. For an 8-bit or 16-bit input, [convertToBinary] returns "0b"
    followed by one binary digit per bit of the type, most significant
    first: the string has 2 + 8 sizeof(T) characters and reads back as
    the input. *)
Theorem convertToBinary_round_trip sizeof_T input :
  (1 <= sizeof_T <= 2)%nat ->
  0 <= input < 2 ^ (8 * Z.of_nat sizeof_T) ->
  String.length (convertToBinary sizeof_T input) = (2 + 8 * sizeof_T)%nat /\
  binary_value (convertToBinary sizeof_T input) = Some input.
Proof.
  intros Hsize Hinput. unfold convertToBinary. split.
  - rewrite convertToBinary_loop_length. cbn [String.length]. lia.
  - rewrite !convertToBinary_loop_cons. cbn [binary_value].
    rewrite (convertToBinary_loop_value _ input EmptyString 0 eq_refl).
    f_equal. replace (Z.of_nat (sizeof_T * 8)) with (8 * Z.of_nat sizeof_T) by lia.
    rewrite Z.mod_small by assumption. lia.
Qed.

Lemma convertToBinary_round_trip_witness :
  String.length (convertToBinary 2 0xBEEF) = 18%nat /\
  binary_value (convertToBinary 2 0xBEEF) = Some 0xBEEF.
Proof. apply (convertToBinary_round_trip 2 0xBEEF); cbn; lia. Defined.

Example convertToBinary_byte : convertToBinary 1 0xB5 = "0b10110101"%string.
Proof. reflexivity. Qed.

(** ** A report that arrives in pieces *)

(** The loop on a port where the bytes arrive in non-empty pieces, one
    per read attempt: it takes the pieces in order until 18 bytes are
    stored, and counts no retry. *)
Lemma poll_pieces chunks :
  forall fuel reportBytes retries bytesRead m later,
    rx_fifo (M16.uart_num m) = [] ->
    rx_script (M16.uart_num m) = map Arrive chunks ++ later ->
    Forall (fun c => c <> []) chunks ->
    Z.of_nat (List.length reportBytes) = bytesRead ->
    bytesRead <= 18 ->
    18 <= bytesRead + Z.of_nat (List.length (List.concat chunks)) ->
    18 - bytesRead <= Z.of_nat fuel ->
    exists m',
      M16.poll fuel reportBytes retries bytesRead m =
      (M16.Collected (reportBytes ++ firstn (Z.to_nat (18 - bytesRead)) (List.concat chunks)), m') /\
      delivered (trace (M16.uart_num m')) =
      delivered (trace (M16.uart_num m)) ++ firstn (Z.to_nat (18 - bytesRead)) (List.concat chunks) /\
      empty_reads (trace (M16.uart_num m')) = empty_reads (trace (M16.uart_num m)).
Proof.
  induction chunks as [|c chunks IH];
    intros fuel rb retries bytesRead m later Hfifo Hscript Hne Hlen Hle Hall Hfuel.
  - cbn in Hall. exists m. rewrite poll_done by lia.
    rewrite firstn_nil, !app_nil_r. auto.
  - destruct (Z.eq_dec bytesRead 18) as [Heq|Hneq].
    { exists m. rewrite poll_done by lia.
      replace (Z.to_nat (18 - bytesRead)) with 0%nat by lia.
      cbn [firstn]. rewrite !app_nil_r. auto. }
    subst bytesRead. destruct fuel as [|fuel]; [lia|].
    rewrite poll_step by lia.
    inversion Hne as [|? ? Hc Hne']; subst.
    unfold port_read. rewrite Hscript, Hfifo. cbn [map app tl].
    set (need := Z.to_nat (18 - Z.of_nat (List.length rb))).
    assert (Hneed : (0 < need)%nat) by (unfold need; lia).
    assert (Hgot : (0 < List.length (firstn need c))%nat).
    { destruct c; [congruence|]. destruct need; [lia|]. cbn. lia. }
    assert (Hpos : (0 < List.length c)%nat) by (destruct c; [congruence|cbn; lia]).
    destruct (Z.ltb_spec 0 (Z.of_nat (List.length (firstn need c)))) as [_|?]; [|lia].
    cbn [List.concat]. rewrite firstn_app.
    destruct (Nat.le_gt_cases need (List.length c)) as [Hfull|Hpart].
    + replace (need - List.length c)%nat with 0%nat by lia.
      cbn [firstn]. rewrite app_nil_r.
      rewrite poll_done by (rewrite length_firstn; unfold need in *; lia).
      eexists. split; [reflexivity|].
      cbn [M16.uart_num trace]. rewrite delivered_app, empty_reads_app.
      cbn [delivered empty_reads].
      destruct (Z.leb_spec (Z.of_nat (List.length (firstn need c))) 0); [lia|].
      rewrite app_nil_r. split; [reflexivity|lia].
    + rewrite firstn_all2 by lia.
      rewrite skipn_all2 by lia.
      edestruct (IH fuel (rb ++ c) retries (Z.of_nat (List.length rb) + Z.of_nat (List.length c))
                   {| M16.uart_num :=
                        {| rx_fifo := []; rx_script := map Arrive chunks ++ later;
                           tx_script := tx_script (M16.uart_num m);
                           trace := trace (M16.uart_num m) ++
                                    [UartRead (18 - Z.of_nat (List.length rb)) 10 c
                                       (Z.of_nat (List.length c))] |};
                      M16.report := M16.report m |} later)
        as (m' & Hpoll & Hd & He); try reflexivity; try assumption.
      * rewrite length_app. lia.
      * unfold need in Hpart. lia.
      * cbn [List.concat] in Hall. rewrite length_app in Hall. lia.
      * unfold need in Hpart. lia.
      * exists m'. rewrite Hpoll, Hd, He. cbn [M16.uart_num trace].
        rewrite delivered_app, empty_reads_app. cbn [delivered empty_reads].
        destruct (Z.leb_spec (Z.of_nat (List.length c)) 0); [lia|].
        replace (Z.to_nat (18 - (Z.of_nat (List.length rb) + Z.of_nat (List.length c))))
          with (need - List.length c)%nat by (unfold need; lia).
        rewrite app_nil_r, <- !app_assoc. split; [reflexivity|]. split; [reflexivity|lia].
Qed.

Lemma requestReport_pieces m chunks later :
  rx_fifo (M16.uart_num m) = [] ->
  rx_script (M16.uart_num m) = map Arrive chunks ++ later ->
  Forall (fun c => c <> []) chunks ->
  (18 <= List.length (List.concat chunks))%nat ->
  fst (M16.requestReport m) = Some true /\
  delivered (trace (M16.uart_num (snd (M16.requestReport m)))) =
  delivered (trace (M16.uart_num m)) ++ firstn 18 (List.concat chunks) /\
  empty_reads (trace (M16.uart_num (snd (M16.requestReport m)))) =
  empty_reads (trace (M16.uart_num m)).
Proof.
  intros Hfifo Hscript Hne Hall.
  destruct (requestReport_cases m)
    as (s1 & s2 & m1 & exit & m2 & _ & Hf & Hs & Ht & Hpoll & Hport & Hret).
  destruct (poll_pieces chunks M16.poll_fuel [] 0 0 m1 later) as (m' & Hp & Hd & He);
    try assumption; try congruence; try reflexivity; try lia.
  { unfold M16.poll_fuel. lia. }
  rewrite Hp in Hpoll. inversion Hpoll; subst exit m2.
  rewrite Hret, Hport, Hd, He, Ht, delivered_app, empty_reads_app.
  cbn [delivered empty_reads]. rewrite app_nil_r, Nat.add_0_r.
  repeat split.
Qed.

(** X22. A report that arrives in pieces is assembled: when the RX
    buffer is empty and the next read attempts bring non-empty pieces that
    hold 18 bytes or more together, [requestReport] succeeds without
    counting a retry, takes exactly the first 18 bytes of the pieces, and
    leaves the report it leaves when these bytes arrive in one read. *)
Theorem requestReport_assembles_pieces m chunks later :
  rx_fifo (M16.uart_num m) = [] ->
  rx_script (M16.uart_num m) = map Arrive chunks ++ later ->
  Forall (fun c => c <> []) chunks ->
  (18 <= List.length (List.concat chunks))%nat ->
  let at_once :=
    {| M16.uart_num := {| rx_fifo := []; rx_script := [Arrive (List.concat chunks)];
                          tx_script := tx_script (M16.uart_num m);
                          trace := trace (M16.uart_num m) |};
       M16.report := M16.report m |} in
  fst (M16.requestReport m) = Some true /\
  delivered (trace (M16.uart_num (snd (M16.requestReport m)))) =
  delivered (trace (M16.uart_num m)) ++ firstn 18 (List.concat chunks) /\
  empty_reads (trace (M16.uart_num (snd (M16.requestReport m)))) =
  empty_reads (trace (M16.uart_num m)) /\
  M16.report (snd (M16.requestReport m)) = M16.report (snd (M16.requestReport at_once)).
Proof.
  intros Hfifo Hscript Hne Hall. cbv zeta.
  destruct (requestReport_pieces m chunks later Hfifo Hscript Hne Hall) as (Hok & Hd & He).
  repeat (split; [assumption|]).
  match goal with |- _ = M16.report (snd (M16.requestReport ?s)) => set (at_once := s) end.
  destruct (requestReport_pieces at_once [List.concat chunks] []) as (Hok' & Hd' & _).
  - reflexivity.
  - reflexivity.
  - constructor; [|constructor]. intros Hnil. rewrite Hnil in Hall. cbn in Hall. lia.
  - cbn [List.concat]. rewrite app_nil_r. exact Hall.
  - cbn [List.concat] in Hd'. rewrite app_nil_r in Hd'.
    destruct (requestReport_success m Hok) as (rb & _ & Hrb & Hr).
    destruct (requestReport_success at_once Hok') as (rb' & _ & Hrb' & Hr').
    rewrite Hd in Hrb. apply app_inv_head in Hrb.
    rewrite Hd' in Hrb'. apply app_inv_head in Hrb'.
    rewrite Hr, Hr'. subst rb rb'. reflexivity.
Qed.

Lemma requestReport_assembles_pieces_witness :
  fst (M16.requestReport
         {| M16.uart_num :=
              {| rx_fifo := [];
                 rx_script := map Arrive [firstn 5 report_frame; skipn 5 report_frame];
                 tx_script := []; trace := [] |};
            M16.report := zero_report |}) = Some true /\
  M16.chipID (M16.report (snd (M16.requestReport
         {| M16.uart_num :=
              {| rx_fifo := [];
                 rx_script := map Arrive [firstn 5 report_frame; skipn 5 report_frame];
                 tx_script := []; trace := [] |};
            M16.report := zero_report |}))) = 0x1234.
Proof.
  destruct (requestReport_assembles_pieces
              {| M16.uart_num :=
                   {| rx_fifo := [];
                      rx_script := map Arrive [firstn 5 report_frame; skipn 5 report_frame];
                      tx_script := []; trace := [] |};
                 M16.report := zero_report |}
              [firstn 5 report_frame; skipn 5 report_frame] [])
    as (Hok & _ & _ & Hr).
  - reflexivity.
  - cbn [M16.uart_num rx_script]. now rewrite app_nil_r.
  - repeat constructor; cbn; discriminate.
  - cbn. lia.
  - split; [exact Hok|]. rewrite Hr. vm_compute. reflexivity.
Defined.
